(** * BoschPricingOptimizer: forecast, price scan and batch recommendations

    A shallow embedding of the class [BoschPricingOptimizer] of
    [src/AWS_DEPLOYMENT.py] (section "Prescriptive Pricing Tool.py"):
    [prepare_features], [forecast_demand], [optimize_price] and
    [generate_recommendations].

    Modelling conventions.
    - Finite numbers are exact rationals ([Q]); the rounding of binary64,
      and the overflow of an operation on finite numbers, are idealised
      away.  Comparisons are therefore stated with [==], [<] and [<=] of [Q].
    - Prices handed in by a caller ([current_price], [min_price],
      [max_price]) are Python numbers, the grid produced by [np.linspace]
      holds numpy [float64] scalars.  The two differ on a zero divisor:
      Python raises [ZeroDivisionError], numpy warns and produces inf or
      nan and the computation goes on.  The quantities of the price scan
      are therefore values of [float64]: a rational, an infinity or nan.
    - A call that returns a dictionary holding inf or nan has the outcome
      [NonFinite]; the records of the model hold finite numbers only.
    - A Python [dict] is a [gmap string value]; a mutated dictionary is
      returned next to the outcome of the call (state passing).
    - The demand estimator ([self.model.predict]) is an opaque field of the
      optimizer; it returns a raw estimate, a numpy scalar, or raises. *)

From Stdlib Require Import QArith Qminmax Qround Qabs Lqa List.
From stdpp Require Import base option gmap strings list fin_maps.
Import ListNotations.

Local Open Scope string_scope.
Local Open Scope list_scope.
Local Open Scope Q_scope.

(** ** Outcomes of a Python call *)

(** Exceptions the modelled code can raise.  All are subclasses of
    Python's [Exception].  [OtherError] stands for whatever the external
    estimator raises (class name and message). *)
Inductive exn : Type :=
  | ZeroDivisionError
  | KeyError (key : string)
  | TypeError
  | OtherError (cls msg : string).

Definition exn_class (e : exn) : string :=
  match e with
  | ZeroDivisionError => "ZeroDivisionError"
  | KeyError _ => "KeyError"
  | TypeError => "TypeError"
  | OtherError cls _ => cls
  end.

Inductive outcome (A : Type) : Type :=
  | Returns (a : A)
  | Raises (e : exn)
  | NonFinite.
Arguments Returns {A} a.
Arguments Raises {A} e.
Arguments NonFinite {A}.

#[export] Instance outcome_ret : MRet outcome := fun A a => Returns a.
#[export] Instance outcome_bind : MBind outcome := fun A B f m =>
  match m with
  | Returns a => f a
  | Raises e => Raises e
  | NonFinite => NonFinite
  end.

(** ** Numbers *)

(** Python's [x > y] on numbers, as [y < x]. *)
Definition Qltb (x y : Q) : bool := negb (Qle_bool y x).

(** A binary64 value as numpy computes with it: a finite number (an exact
    rational here), an infinity, or nan.  A zero is the positive zero. *)
Inductive float64 : Type :=
  | Finite (q : Q)
  | Infinite (negative : bool)
  | NaN.

Definition is_negative (q : Q) : bool := Qltb q 0.

(** [- x] *)
Definition f_opp (x : float64) : float64 :=
  match x with
  | Finite a => Finite (- a)
  | Infinite s => Infinite (negb s)
  | NaN => NaN
  end.

(** [x + y]: inf + (-inf) is nan. *)
Definition f_add (x y : float64) : float64 :=
  match x with
  | Finite a =>
      match y with
      | Finite b => Finite (a + b)
      | Infinite t => Infinite t
      | NaN => NaN
      end
  | Infinite s =>
      match y with
      | Finite _ => Infinite s
      | Infinite t => if Bool.eqb s t then Infinite s else NaN
      | NaN => NaN
      end
  | NaN => NaN
  end.

(** [x - y] *)
Definition f_sub (x y : float64) : float64 := f_add x (f_opp y).

(** [x * y]: 0 * inf is nan. *)
Definition f_mul (x y : float64) : float64 :=
  match x with
  | Finite a =>
      match y with
      | Finite b => Finite (a * b)
      | Infinite t =>
          if Qeq_bool a 0 then NaN else Infinite (xorb (is_negative a) t)
      | NaN => NaN
      end
  | Infinite s =>
      match y with
      | Finite b =>
          if Qeq_bool b 0 then NaN else Infinite (xorb s (is_negative b))
      | Infinite t => Infinite (xorb s t)
      | NaN => NaN
      end
  | NaN => NaN
  end.

(** [x / y] when an operand is a numpy scalar: a zero divisor gives inf,
    or nan for 0 / 0 (with a RuntimeWarning), no exception. *)
Definition np_div (x y : float64) : float64 :=
  match x with
  | Finite a =>
      match y with
      | Finite b =>
          if Qeq_bool b 0
          then (if Qeq_bool a 0 then NaN else Infinite (is_negative a))
          else Finite (a / b)
      | Infinite _ => Finite 0
      | NaN => NaN
      end
  | Infinite s =>
      match y with
      | Finite b => Infinite (xorb s (is_negative b))
      | Infinite _ => NaN
      | NaN => NaN
      end
  | NaN => NaN
  end.

(** [x > y]: false as soon as an operand is nan. *)
Definition f_gt (x y : float64) : bool :=
  match x with
  | Finite a =>
      match y with
      | Finite b => Qltb b a
      | Infinite t => t
      | NaN => false
      end
  | Infinite s =>
      match y with
      | Finite _ => negb s
      | Infinite t => negb s && t
      | NaN => false
      end
  | NaN => false
  end.

(** [x / y] as Python evaluates it: when both operands are Python floats
    ([numpy = false]) a zero divisor raises, when one of them is a numpy
    scalar the division is numpy's. *)
Definition py_div (numpy : bool) (x y : float64) : outcome float64 :=
  match y with
  | Finite b =>
      if Qeq_bool b 0 && negb numpy then Raises ZeroDivisionError
      else Returns (np_div x y)
  | _ => Returns (np_div x y)
  end.

(** The rational a finite value is. *)
Definition to_finite (x : float64) : option Q :=
  match x with
  | Finite q => Some q
  | _ => None
  end.

(** Python's [max(a, b)]: the first argument is kept unless the second is
    strictly greater. *)
Definition py_max (a b : Q) : Q := if Qltb a b then b else a.

(** [np.linspace(start, stop, num)] (endpoint included): [i * step + start]
    with [step = (stop - start) / (num - 1)], the last sample overwritten
    with [stop]. *)
Definition linspace (start stop : Q) (num : nat) : list Q :=
  match num with
  | O => []
  | S O => [start]
  | S div =>
      let step := (stop - start) / inject_Z (Z.of_nat div) in
      map (fun i : nat => inject_Z (Z.of_nat i) * step + start) (seq 0 div)
        ++ [stop]
  end.

(** ** Data model *)

(** Values stored in a product dictionary: numbers and labels. *)
Inductive value : Type :=
  | VNum (q : Q)
  | VStr (s : string).

Record BoschPricingOptimizer : Type := {
  (** [self.model.predict(features)[0]] *)
  model_predict : list value -> outcome Q;
  (** [self.features] *)
  features : list string;
  (** [self.elasticities] *)
  elasticities : gmap string Q
}.

(** The feature list and the elasticity table written in [__init__]. *)
Definition default_features : list string :=
  [ "Price"; "Promotion"; "Supplier_Cost"; "Stock_Level";
    "Replenishment_Lead_Time"; "Month"; "Quarter"; "DayOfWeek";
    "WeekOfYear"; "Is_Weekend"; "Year"; "Profit_Margin";
    "Margin_Percentage"; "Stock_Out_Risk"; "Avg_Category_Price";
    "Price_Ratio_To_Avg"; "Product_Category_Encoded";
    "Store_Location_Encoded" ].

Definition default_elasticities : gmap string Q :=
  <["Snacks" := -(14 # 10)]>
  (<["Beverages" := -(13 # 10)]>
  (<["Dairy" := -(9 # 10)]>
  (<["Household" := -(7 # 10)]>
  (<["Personal Care" := -(6 # 10)]> ∅)))).

Definition mk_optimizer (predict : list value -> outcome Q)
    : BoschPricingOptimizer :=
  {| model_predict := predict;
     features := default_features;
     elasticities := default_elasticities |}.

Record SimulationPoint : Type := {
  price : Q;
  demand : Q;
  revenue : Q;
  price_change_pct : Q
}.

Record OptimizationResult : Type := {
  current_price : Q;
  optimal_price : Q;
  current_revenue : Q;
  optimal_revenue : Q;
  revenue_increase_pct : Q;
  result_price_change_pct : Q;
  simulation_results : list SimulationPoint
}.

(** ** prepare_features and forecast_demand *)

Definition prepare_features (self : BoschPricingOptimizer)
    (product_data : gmap string value) : list value :=
  map (fun feature => default (VNum 0) (product_data !! feature))
      (features self).

Definition forecast_demand (self : BoschPricingOptimizer)
    (product_data : gmap string value) : outcome Q :=
  prediction ← model_predict self (prepare_features self product_data);
  mret (py_max 0 prediction).

(** ** optimize_price *)

(** [self.elasticities.get(category, -1.0)]; the table is keyed by
    strings, so a category that is not a string is never found. *)
Definition get_elasticity (self : BoschPricingOptimizer) (category : value)
    : Q :=
  match category with
  | VStr c => default (-1) (elasticities self !! c)
  | VNum _ => -1
  end.

(** A dictionary appended to [results]. *)
Record trace_row : Type := {
  row_price : Q;
  row_demand : float64;
  row_revenue : float64;
  row_price_change_pct : float64
}.

(** The loop variables [best_price], [best_revenue] and [results].  The
    best pair starts as the caller's Python numbers and becomes a pair of
    numpy scalars once a candidate of the grid has replaced it:
    [best_is_numpy] tells which. *)
Record scan_state : Type := {
  best_price : Q;
  best_revenue : float64;
  best_is_numpy : bool;
  results : list trace_row
}.

(** One iteration of [for test_price in price_points].  [test_price] is a
    numpy scalar, so the division by [current_price] is numpy's. *)
Definition scan_body (self : BoschPricingOptimizer) (category : value)
    (current_price base_demand : Q) (st : scan_state) (test_price : Q)
    : scan_state :=
  let elasticity := get_elasticity self category in
  let price_change_pct :=
    np_div (Finite (test_price - current_price)) (Finite current_price) in
  let demand_change_pct := f_mul (Finite elasticity) price_change_pct in
  let adjusted_demand :=
    f_mul (Finite base_demand) (f_add (Finite 1) demand_change_pct) in
  let test_revenue := f_mul (Finite test_price) adjusted_demand in
  let results' :=
    results st ++ [ {| row_price := test_price;
                       row_demand := adjusted_demand;
                       row_revenue := test_revenue;
                       row_price_change_pct := price_change_pct |} ] in
  if f_gt test_revenue (best_revenue st)
  then {| best_price := test_price;
          best_revenue := test_revenue;
          best_is_numpy := true;
          results := results' |}
  else {| best_price := best_price st;
          best_revenue := best_revenue st;
          best_is_numpy := best_is_numpy st;
          results := results' |}.

(** The loop variables after the loop over [np.linspace(min_price,
    max_price, 50)]. *)
Definition scan_prices (self : BoschPricingOptimizer) (category : value)
    (current_price base_demand min_price max_price : Q) : scan_state :=
  fold_left (scan_body self category current_price base_demand)
    (linspace min_price max_price 50)
    {| best_price := current_price;
       best_revenue := Finite (current_price * base_demand);
       best_is_numpy := false;
       results := [] |}.

(** A row of the trace as a record of finite numbers, if it is one. *)
Definition finite_row (row : trace_row) : option SimulationPoint :=
  match to_finite (row_demand row), to_finite (row_revenue row),
        to_finite (row_price_change_pct row) with
  | Some d, Some r, Some c =>
      Some {| price := row_price row; demand := d; revenue := r;
              price_change_pct := c |}
  | _, _, _ => None
  end.

Fixpoint finite_trace (rows : list trace_row)
    : option (list SimulationPoint) :=
  match rows with
  | [] => Some []
  | row :: rest =>
      match finite_row row, finite_trace rest with
      | Some pt, Some pts => Some (pt :: pts)
      | _, _ => None
      end
  end.

(** [optimize_price(product_data, current_price, category, min_price,
    max_price)].  The second component is [product_data] as the caller
    sees it afterwards.

    The two divisions of the returned dictionary are Python's unless an
    operand is a numpy scalar.  [best_price] and [best_revenue] are numpy
    scalars once replaced.  [base_demand] is [max(0, prediction)]: the
    integer [0], or the estimator's prediction, a numpy scalar, when that
    is positive; [base_revenue] is a numpy scalar in the second case. *)
Definition optimize_price (self : BoschPricingOptimizer)
    (product_data : gmap string value) (current_price : Q) (category : value)
    (min_price max_price : option Q)
    : outcome OptimizationResult * gmap string value :=
  let min_price := default (current_price * (7 # 10)) min_price in
  let max_price := default (current_price * (13 # 10)) max_price in
  let product_data := <["Price" := VNum current_price]> product_data in
  (base_demand ← forecast_demand self product_data;
   let base_revenue := current_price * base_demand in
   let st :=
     scan_prices self category current_price base_demand min_price max_price in
   revenue_increase ←
     py_div (best_is_numpy st || Qltb 0 base_demand)
       (f_sub (best_revenue st) (Finite base_revenue)) (Finite base_revenue);
   price_change ←
     py_div (best_is_numpy st)
       (Finite (best_price st - current_price)) (Finite current_price);
   match to_finite (best_revenue st),
         to_finite (f_mul revenue_increase (Finite 100)),
         to_finite (f_mul price_change (Finite 100)),
         finite_trace (results st) with
   | Some optimal_revenue, Some revenue_increase_pct, Some price_change_pct,
     Some trace =>
       Returns {| current_price := current_price;
                  optimal_price := best_price st;
                  current_revenue := base_revenue;
                  optimal_revenue := optimal_revenue;
                  revenue_increase_pct := revenue_increase_pct;
                  result_price_change_pct := price_change_pct;
                  simulation_results := trace |}
   | _, _, _, _ => NonFinite
   end,
   product_data).

(** ** generate_recommendations *)

Record recommendation : Type := {
  Product_Category : value;
  Store_Location : value;
  Current_Price : Q;
  Recommended_Price : Q;
  Price_Change_Pct : Q;
  Expected_Revenue_Increase_Pct : Q;
  Recommendation : string
}.

(** A line printed by the [except] handler: the category it names and the
    exception it reports. *)
Definition diagnostic : Type := value * exn.

(** The body of the [try] block for one product.  The arguments of the
    call are evaluated left to right ([product['Price']], then
    [product['Product_Category']]); a price that is a string fails at
    [current_price * 0.7]. *)
Definition try_product (self : BoschPricingOptimizer)
    (product : gmap string value) : outcome recommendation :=
  match product !! "Price" with
  | None => Raises (KeyError "Price")
  | Some p =>
      match product !! "Product_Category" with
      | None => Raises (KeyError "Product_Category")
      | Some category =>
          match p with
          | VStr _ => Raises TypeError
          | VNum cp =>
              let '(call, product) :=
                optimize_price self product cp category None None in
              result ← call;
              match product !! "Product_Category", product !! "Store_Location" with
              | None, _ => Raises (KeyError "Product_Category")
              | Some _, None => Raises (KeyError "Store_Location")
              | Some cat, Some loc =>
                  mret {| Product_Category := cat;
                          Store_Location := loc;
                          Current_Price := result.(current_price);
                          Recommended_Price := result.(optimal_price);
                          Price_Change_Pct := result.(result_price_change_pct);
                          Expected_Revenue_Increase_Pct :=
                            result.(revenue_increase_pct);
                          Recommendation :=
                            if Qltb 0 result.(result_price_change_pct)
                            then "INCREASE" else "DECREASE" |}
              end
          end
      end
  end.

(** The [for product in products_data] loop with its [try]/[except].  The
    handler prints [product['Product_Category']] and so raises [KeyError]
    itself when the product has no such key; that exception leaves
    [generate_recommendations].  A product whose result holds inf or nan
    gets a row like any other and the loop goes on: the frame returned in
    the end then holds inf or nan. *)
Fixpoint recommend_loop (self : BoschPricingOptimizer)
    (products_data : list (gmap string value))
    (recommendations : list recommendation) (log : list diagnostic)
    : outcome (list recommendation) * list diagnostic :=
  match products_data with
  | [] => (Returns recommendations, log)
  | product :: rest =>
      match try_product self product with
      | Returns r => recommend_loop self rest (recommendations ++ [r]) log
      | Raises e =>
          match product !! "Product_Category" with
          | Some category =>
              recommend_loop self rest recommendations (log ++ [(category, e)])
          | None => (Raises (KeyError "Product_Category"), log)
          end
      | NonFinite =>
          match recommend_loop self rest recommendations log with
          | (Returns _, log') => (NonFinite, log')
          | raised => raised
          end
      end
  end.

(** [generate_recommendations(products_data)]: the records of the returned
    data frame, and the diagnostics printed on the way. *)
Definition generate_recommendations (self : BoschPricingOptimizer)
    (products_data : list (gmap string value))
    : outcome (list recommendation) * list diagnostic :=
  recommend_loop self products_data [] [].

(** ** The scan as a pure fold *)

(** With a non-zero current price every quantity of the scan is finite,
    and the loop is a fold over rationals. *)

(** The dictionary appended to [results] for the candidate [p]. *)
Definition sim_point (elasticity cp bd p : Q) : SimulationPoint :=
  {| price := p;
     demand := bd * (1 + elasticity * ((p - cp) / cp));
     revenue := p * (bd * (1 + elasticity * ((p - cp) / cp)));
     price_change_pct := (p - cp) / cp |}.

(** The loop variables, all finite. *)
Record finite_state : Type := {
  fin_best_price : Q;
  fin_best_revenue : Q;
  fin_results : list SimulationPoint
}.

(** One iteration on finite loop variables. *)
Definition scan_step (elasticity cp bd : Q) (st : finite_state) (p : Q)
    : finite_state :=
  let pt := sim_point elasticity cp bd p in
  if Qltb (fin_best_revenue st) (revenue pt)
  then {| fin_best_price := p; fin_best_revenue := revenue pt;
          fin_results := fin_results st ++ [pt] |}
  else {| fin_best_price := fin_best_price st; fin_best_revenue := fin_best_revenue st;
          fin_results := fin_results st ++ [pt] |}.

(** What "replace only on strict improvement" selects from the candidates
    [ps], starting from the pair [(bp, br)]: either nothing beat the initial
    pair, or the first candidate of maximal revenue. *)
Definition first_max (e cp bd : Q) (bp br : Q) (ps : list Q) (bp' br' : Q)
    : Prop :=
  (bp' = bp /\ br' = br /\
   Forall (fun q => revenue (sim_point e cp bd q) <= br) ps)
  \/
  (exists l1 p l2,
     ps = l1 ++ p :: l2 /\ bp' = p /\ br' = revenue (sim_point e cp bd p) /\
     br < br' /\
     Forall (fun q => revenue (sim_point e cp bd q) < br') l1 /\
     Forall (fun q => revenue (sim_point e cp bd q) <= br') l2).

(** The search window after the defaults are filled in. *)
Definition lower_bound (cp : Q) (min_price : option Q) : Q :=
  default (cp * (7 # 10)) min_price.
Definition upper_bound (cp : Q) (max_price : option Q) : Q :=
  default (cp * (13 # 10)) max_price.

(** The loop variables after the scan of the window [lo, hi]. *)
Definition scan (elasticity cp bd lo hi : Q) : finite_state :=
  fold_left (scan_step elasticity cp bd) (linspace lo hi 50)
    {| fin_best_price := cp; fin_best_revenue := cp * bd; fin_results := [] |}.

(** The dictionary returned when no division fails. *)
Definition result_of (elasticity cp bd lo hi : Q) : OptimizationResult :=
  let st := scan elasticity cp bd lo hi in
  {| current_price := cp;
     optimal_price := fin_best_price st;
     current_revenue := cp * bd;
     optimal_revenue := fin_best_revenue st;
     revenue_increase_pct := (fin_best_revenue st - cp * bd) / (cp * bd) * 100;
     result_price_change_pct := (fin_best_price st - cp) / cp * 100;
     simulation_results := fin_results st |}.

(** Finite loop variables as the loop variables of [scan_body]. *)
Definition row_of (pt : SimulationPoint) : trace_row :=
  {| row_price := price pt;
     row_demand := Finite (demand pt);
     row_revenue := Finite (revenue pt);
     row_price_change_pct := Finite (price_change_pct pt) |}.

Definition lift_state (numpy : bool) (st : finite_state) : scan_state :=
  {| best_price := fin_best_price st;
     best_revenue := Finite (fin_best_revenue st);
     best_is_numpy := numpy;
     results := map row_of (fin_results st) |}.

(** With a zero current price a candidate's revenue is inf, -inf or nan;
    it is +inf, and so replaces a finite best pair, exactly when the
    elasticity and the base demand are positive and the candidate is not
    zero. *)
Definition gains_at_zero_price (elasticity bd p : Q) : bool :=
  Qltb 0 elasticity && Qltb 0 bd && negb (Qeq_bool p 0).

Definition zero_price_gain (elasticity bd lo hi : Q) : bool :=
  existsb (gains_at_zero_price elasticity bd) (linspace lo hi 50).

(** What the returned pair [(bp, br)] is with respect to the returned
    trace: the initial pair [(cp, base)] when no point of the trace has a
    revenue above [base], and otherwise the first point of the trace whose
    revenue is maximal. *)
Definition earliest_best (cp base : Q) (trace : list SimulationPoint)
    (bp br : Q) : Prop :=
  (bp = cp /\ br = base /\ Forall (fun pt => revenue pt <= base) trace)
  \/
  (exists l1 pt l2,
     trace = l1 ++ pt :: l2 /\ bp = price pt /\ br = revenue pt /\
     base < revenue pt /\
     Forall (fun q => revenue q < revenue pt) l1 /\
     Forall (fun q => revenue q <= revenue pt) l2).

(** The optimizer with another elasticity table. *)
Definition with_elasticities (self : BoschPricingOptimizer)
    (table : gmap string Q) : BoschPricingOptimizer :=
  {| model_predict := model_predict self;
     features := features self;
     elasticities := table |}.

(** ** Concrete optimizers and products used in the examples *)

(** An estimator that answers [q] whatever the features. *)
Definition constant_estimator (q : Q) : BoschPricingOptimizer :=
  mk_optimizer (fun _ => Returns q).

(** An estimator that rejects a price feature of 30 and answers 100
    otherwise. *)
Definition picky_estimator : BoschPricingOptimizer :=
  mk_optimizer (fun fv =>
    match fv with
    | VNum p :: _ =>
        if Qeq_bool p 30
        then Raises (OtherError "ValueError" "feature shape mismatch")
        else Returns 100
    | _ => Returns 100
    end).

Definition mk_product (category location : string) (p : Q)
    : gmap string value :=
  <["Product_Category" := VStr category]>
  (<["Store_Location" := VStr location]>
  (<["Price" := VNum p]> ∅)).

(** A product dictionary without the key ['Product_Category']. *)
Definition product_without_category (location : string) (p : Q)
    : gmap string value :=
  <["Store_Location" := VStr location]> (<["Price" := VNum p]> ∅).

Definition batch_of_five : list (gmap string value) :=
  [ mk_product "Snacks" "Urban" 10;
    mk_product "Beverages" "Urban" 20;
    mk_product "Dairy" "Rural" 30;
    mk_product "Household" "Rural" 40;
    mk_product "Personal Care" "Urban" 50 ].

Definition batch_with_unlabelled : list (gmap string value) :=
  [ mk_product "Snacks" "Urban" 10;
    product_without_category "Urban" 20;
    mk_product "Dairy" "Rural" 30 ].

(** The result of a call, for the examples (a dummy when the call does not
    return). *)
Definition returned (o : outcome OptimizationResult) : OptimizationResult :=
  match o with
  | Returns r => r
  | _ => {| current_price := 0; optimal_price := 0; current_revenue := 0;
            optimal_revenue := 0; revenue_increase_pct := 0;
            result_price_change_pct := 0; simulation_results := [] |}
  end.

(** The symmetric call of the specification: current price 10, window
    [9, 11], a forecast of 1000 and a category missing from the table
    (elasticity -1.0). *)
Definition symmetric_call : outcome OptimizationResult * gmap string value :=
  optimize_price (constant_estimator 1000) (mk_product "Frozen" "Urban" 10)
    10 (VStr "Frozen") (Some 9) (Some 11).

(** A call whose window [10, 20] reaches far above the current price of a
    product of the elastic category Snacks. *)
Definition wide_window_call : outcome OptimizationResult * gmap string value :=
  optimize_price (constant_estimator 1000) (mk_product "Snacks" "Urban" 10)
    10 (VStr "Snacks") (Some 10) (Some 20).

(** A call with the default window. *)
Definition default_window_call : outcome OptimizationResult * gmap string value :=
  optimize_price (constant_estimator 1000) (mk_product "Snacks" "Urban" 10)
    10 (VStr "Snacks") None None.

(** An optimizer whose table gives the category Staples elasticity 0. *)
Definition inelastic_optimizer : BoschPricingOptimizer :=
  with_elasticities (constant_estimator 100)
    (<["Staples" := 0]> default_elasticities).

(** A call of it whose window [5, 8] lies below the current price 10. *)
Definition low_window_call : outcome OptimizationResult * gmap string value :=
  optimize_price inelastic_optimizer (mk_product "Staples" "Urban" 10)
    10 (VStr "Staples") (Some 5) (Some 8).

(** A call of it with the default window. *)
Definition inelastic_default_call
    : outcome OptimizationResult * gmap string value :=
  optimize_price inelastic_optimizer (mk_product "Staples" "Urban" 10)
    10 (VStr "Staples") None None.





(** A batch whose second product has a price of 0. *)
Definition batch_with_free_product : list (gmap string value) :=
  [ mk_product "Snacks" "Urban" 10;
    mk_product "Dairy" "Rural" 0;
    mk_product "Household" "Rural" 40 ].

(** ** Reading a batch product by product *)

(** The record a product contributes to the data frame, if its [try]
    block returns. *)
Definition record_of (self : BoschPricingOptimizer)
    (product : gmap string value) : option recommendation :=
  match try_product self product with
  | Returns r => Some r
  | _ => None
  end.

(** The diagnostic a product contributes, if its [try] block raises and
    the handler can name its category. *)
Definition diagnostic_of (self : BoschPricingOptimizer)
    (product : gmap string value) : option diagnostic :=
  match try_product self product with
  | Raises e => (fun category => (category, e)) <$> product !! "Product_Category"
  | _ => None
  end.

(** The records and the diagnostics of a batch that returns (empty lists
    otherwise), for the examples. *)
Definition records_of_batch (self : BoschPricingOptimizer)
    (products_data : list (gmap string value)) : list recommendation :=
  match fst (generate_recommendations self products_data) with
  | Returns recs => recs
  | _ => []
  end.

(** * The mock API server: predict_demand, /predict and /batch-predict

    The first part of [src/AWS_DEPLOYMENT.py] (the same code is in
    [src/mock_api_server.py]).  As before numbers are exact rationals; the
    finite range of binary64 is kept in two places where Python raises
    (an integer too large to become a float) and in the product of the
    factors, where an overflow gives inf.  In this part a run that meets
    inf or nan (an overflow, or a field that is NaN or Infinity) has the
    outcome [NonFinite] from there on: the code goes on computing with
    the value and answers, the properties below are about the runs that
    stay finite, and [predict_demand_body_plain] shows that the requests
    of everyday use do.
    What the Python runtime and the libraries decide (parsing a string as
    a number, the text of an exception, the random draws, the clock) is
    read from a [runtime]. *)

(** Values as [json.loads] builds them; an object keeps its keys in
    order and has each key once. *)
#[warnings="-register-all"]
Inductive json : Type :=
  | JNull
  | JBool (b : bool)
  | JInt (z : Z)
  | JFloat (q : Q)
  | JNaN
  | JInfinity (negative : bool)
  | JStr (s : string)
  | JArr (items : list json)
  | JObj (fields : list (string * json)).

Record runtime : Type := {
  (** [float(s)] for a string [s] *)
  parse_float : string -> outcome Q;
  (** [int(s)] for a string [s] *)
  parse_int : string -> outcome Z;
  (** [str(e)] for an exception [e] *)
  str_exn : exn -> string;
  (** the successive values of [random.uniform(-0.05, 0.05)] *)
  uniform : nat -> Q;
  (** [datetime.now().isoformat()] *)
  now : string
}.

(** [d[key]] of a dictionary, if the key is there. *)
Fixpoint dict_get (fields : list (string * json)) (key : string)
    : option json :=
  match fields with
  | [] => None
  | (k, v) :: rest => if String.eqb k key then Some v else dict_get rest key
  end.

(** Integers from this magnitude on do not fit a float: converting them
    raises OverflowError. *)
Definition float_overflow : Z := (2 ^ 1024 - 2 ^ 970)%Z.

(** An [int] operand of float arithmetic. *)
Definition int_to_float (z : Z) : outcome Q :=
  if (Z.abs z <? float_overflow)%Z then Returns (inject_Z z)
  else Raises (OtherError "OverflowError" "int too large to convert to float").

(** [a / b] on two [int]s, for a positive [b]. *)
Definition int_true_div (a b : Z) : outcome Q :=
  if (Z.abs a <? float_overflow * b)%Z then Returns (inject_Z a / inject_Z b)
  else Raises (OtherError "OverflowError"
                 "integer division result too large for a float").

(** The result of a float operation: finite, or inf. *)
Definition fl (x : Q) : outcome Q :=
  if Qltb (Qabs x) (inject_Z float_overflow) then Returns x else NonFinite.

(** [float(v)] *)
Definition py_float (rt : runtime) (v : json) : outcome Q :=
  match v with
  | JBool b => Returns (if b then 1 else 0)
  | JInt z => int_to_float z
  | JFloat q => Returns q
  | JNaN | JInfinity _ => NonFinite
  | JStr s => parse_float rt s
  | JNull | JArr _ | JObj _ => Raises TypeError
  end.

(** [int(v)]; a float is truncated towards zero. *)
Definition py_int (rt : runtime) (v : json) : outcome Z :=
  match v with
  | JBool b => Returns (if b then 1 else 0)%Z
  | JInt z => Returns z
  | JFloat q => Returns (Z.quot (Qnum q) (Z.pos (Qden q)))
  | JNaN =>
      Raises (OtherError "ValueError" "cannot convert float NaN to integer")
  | JInfinity _ =>
      Raises (OtherError "OverflowError"
                "cannot convert float infinity to integer")
  | JStr s => parse_int rt s
  | JNull | JArr _ | JObj _ => Raises TypeError
  end.

(** Python's [min(a, b)]: the first argument is kept unless the second is
    strictly smaller. *)
Definition py_min (a b : Q) : Q := if Qltb b a then b else a.

(** The nearest integer, a tie going to the even one. *)
Definition round_half_even (x : Q) : Z :=
  let f := Qfloor x in
  let r := x - inject_Z f in
  if Qltb r (1 # 2) then f
  else if Qltb (1 # 2) r then (f + 1)%Z
  else if Z.even f then f else (f + 1)%Z.

(** [round(x, 2)] *)
Definition py_round2 (x : Q) : Q := inject_Z (round_half_even (x * 100)) / 100.

(** The name of the Python type of a value. *)
Definition type_name (v : json) : string :=
  match v with
  | JNull => "NoneType"
  | JBool _ => "bool"
  | JInt _ => "int"
  | JFloat _ | JNaN | JInfinity _ => "float"
  | JStr _ => "str"
  | JArr _ => "list"
  | JObj _ => "dict"
  end.

(** The exception of [v.get(...)] on a value that is not a dictionary. *)
Definition no_get (v : json) : exn :=
  OtherError "AttributeError"
    ("'" ++ type_name v ++ "' object has no attribute 'get'").

(** The body of the [try] block of [predict_demand].  The draw is the
    [rng]-th value of the generator. *)
Definition predict_demand_body (rt : runtime) (rng : nat) (input_data : json)
    : outcome Q :=
  match input_data with
  | JObj fields =>
      price ← py_float rt (default (JInt 10) (dict_get fields "price"));
      promotion ← py_int rt (default (JInt 0) (dict_get fields "promotion"));
      competitor_price ←
        py_float rt (default (JInt 10) (dict_get fields "competitor_price"));
      day_of_week ← py_int rt (default (JInt 1) (dict_get fields "day_of_week"));
      month ← py_int rt (default (JInt 1) (dict_get fields "month"));
      inventory_level ←
        py_int rt (default (JInt 500) (dict_get fields "inventory_level"));
      let base_demand := 1000 in
      let price_factor := py_max 0 (1 - (price - 10) * (8 # 100)) in
      let promotion_boost := if (promotion =? 1)%Z then 125 # 100 else 1 in
      let competition_boost :=
        if Qltb price competitor_price then 115 # 100
        else if Qltb competitor_price price then 90 # 100
        else 1 in
      let day_factor :=
        if ((day_of_week =? 6) || (day_of_week =? 7))%Z then 11 # 10 else 1 in
      distance ← int_to_float (Z.abs (6 - month));
      let seasonal_factor := 1 + (15 # 100) * distance / 6 in
      ratio ← int_true_div inventory_level 500;
      let inventory_factor := py_min 1 ratio in
      prediction ← fl (base_demand * price_factor);
      prediction ← fl (prediction * promotion_boost);
      prediction ← fl (prediction * competition_boost);
      prediction ← fl (prediction * day_factor);
      prediction ← fl (prediction * seasonal_factor);
      prediction ← fl (prediction * inventory_factor);
      prediction ← fl (prediction * (1 + uniform rt rng));
      mret (py_max 0 (py_round2 prediction))
  | _ => Raises (no_get input_data)
  end.

(** [predict_demand(input_data)]: every exception of the body is raised
    again as a ValueError.  The second component is the number of draws
    the generator has made afterwards: the draw is made once the fields
    are converted, and not at all when the body raises. *)
Definition predict_demand (rt : runtime) (rng : nat) (input_data : json)
    : outcome Q * nat :=
  match predict_demand_body rt rng input_data with
  | Returns d => (Returns d, S rng)
  | Raises e =>
      (Raises (OtherError "ValueError"
                 ("Prediction error: " ++ str_exn rt e)), rng)
  | NonFinite => (NonFinite, S rng)
  end.

(** ** The endpoints *)

(** What a handler reads of the request: [request.is_json] and
    [request.get_json()], [None] when the latter raises BadRequest. *)
Record request : Type := {
  is_json : bool;
  get_json : option json
}.

(** The pair [jsonify(...), status] a handler returns. *)
Record response : Type := {
  body : json;
  status_code : Z
}.

Definition required_fields : list string :=
  ["price"; "promotion"; "competitor_price"; "day_of_week"; "month"].

Definition is_substring (s1 s2 : string) : bool :=
  match String.index 0 s1 s2 with Some _ => true | None => false end.

(** [field in container] *)
Definition json_contains (container : json) (field : string) : outcome bool :=
  match container with
  | JObj fields =>
      Returns (match dict_get fields field with Some _ => true | None => false end)
  | JArr items =>
      Returns (existsb (fun item => match item with
                                    | JStr s => String.eqb s field
                                    | _ => false
                                    end) items)
  | JStr s => Returns (is_substring field s)
  | _ => Raises TypeError
  end.

(** [[field for field in fields if field not in input_data]] *)
Fixpoint missing_from (input_data : json) (fields : list string)
    : outcome (list string) :=
  match fields with
  | [] => mret []
  | field :: rest =>
      present ← json_contains input_data field;
      missing ← missing_from input_data rest;
      mret (if (present : bool) then missing else field :: missing)
  end.

Definition error_500 (rt : runtime) (e : exn) : response :=
  {| body := JObj [("error", JStr "Internal server error");
                   ("details", JStr (str_exn rt e));
                   ("status", JStr "error")];
     status_code := 500 |}.

Definition not_json_400 : response :=
  {| body := JObj [("error", JStr "Request must be JSON");
                   ("status", JStr "error")];
     status_code := 400 |}.

(** The exception [request.get_json()] raises on a body it cannot parse. *)
Definition BadRequest : exn := OtherError "BadRequest" "400 Bad Request".

(** [predict()], the handler of POST /predict. *)
Definition predict (rt : runtime) (rng : nat) (req : request)
    : outcome response * nat :=
  if negb (is_json req) then (Returns not_json_400, rng)
  else
    match get_json req with
    | None => (Returns (error_500 rt BadRequest), rng)
    | Some input_data =>
        match missing_from input_data required_fields with
        | Raises e => (Returns (error_500 rt e), rng)
        | NonFinite => (NonFinite, rng)
        | Returns (field :: rest) =>
            (Returns
               {| body :=
                    JObj [("error",
                           JStr ("Missing required fields: "
                                 ++ String.concat ", " (field :: rest)));
                          ("status", JStr "error");
                          ("required_fields", JArr (map JStr required_fields))];
                  status_code := 400 |}, rng)
        | Returns [] =>
            match predict_demand rt rng input_data with
            | (Returns prediction, rng') =>
                let confidence_lower := py_round2 (prediction * (85 # 100)) in
                let confidence_upper := py_round2 (prediction * (115 # 100)) in
                (Returns
                   {| body :=
                        JObj [("predicted_demand", JFloat prediction);
                              ("confidence_interval",
                               JObj [("lower", JFloat confidence_lower);
                                     ("upper", JFloat confidence_upper);
                                     ("confidence_level", JFloat (95 # 100))]);
                              ("input_features", input_data);
                              ("model_version", JStr "1.0");
                              ("timestamp", JStr (now rt));
                              ("status", JStr "success")];
                      status_code := 200 |}, rng')
            | (Raises e, rng') =>
                if String.eqb (exn_class e) "ValueError"
                then (Returns {| body := JObj [("error", JStr (str_exn rt e));
                                               ("status", JStr "error")];
                                 status_code := 400 |}, rng')
                else (Returns (error_500 rt e), rng')
            | (NonFinite, rng') => (NonFinite, rng')
            end
        end
    end.

(** [not scenarios] is false for these values. *)
Definition truthy (v : json) : bool :=
  match v with
  | JNull => false
  | JBool b => b
  | JInt z => negb (z =? 0)%Z
  | JFloat q => negb (Qeq_bool q 0)
  | JNaN | JInfinity _ => true
  | JStr s => negb (String.eqb s "")
  | JArr items => match items with [] => false | _ => true end
  | JObj fields => match fields with [] => false | _ => true end
  end.

(** The characters of a string, each a string of length one. *)
Fixpoint characters (s : string) : list json :=
  match s with
  | EmptyString => []
  | String c rest => JStr (String c EmptyString) :: characters rest
  end.

(** What [enumerate(scenarios)] runs through. *)
Definition iterate (v : json) : outcome (list json) :=
  match v with
  | JArr items => Returns items
  | JObj fields => Returns (map (fun kv => JStr (fst kv)) fields)
  | JStr s => Returns (characters s)
  | _ => Raises TypeError
  end.

Definition success_entry (i : nat) (prediction : Q) (scenario : json) : json :=
  JObj [("scenario_id", JInt (Z.of_nat i + 1));
        ("predicted_demand", JFloat prediction);
        ("input", scenario);
        ("status", JStr "success")].

Definition error_entry (rt : runtime) (i : nat) (e : exn) (scenario : json)
    : json :=
  JObj [("scenario_id", JInt (Z.of_nat i + 1));
        ("error", JStr (str_exn rt e));
        ("input", scenario);
        ("status", JStr "error")].

(** The loop [for i, scenario in enumerate(scenarios)] from index [i] on. *)
Fixpoint batch_loop (rt : runtime) (rng : nat) (i : nat)
    (scenarios : list json) (predictions : list json)
    : outcome (list json) * nat :=
  match scenarios with
  | [] => (Returns predictions, rng)
  | scenario :: rest =>
      match predict_demand rt rng scenario with
      | (Returns prediction, rng') =>
          batch_loop rt rng' (S i) rest
            (predictions ++ [success_entry i prediction scenario])
      | (Raises e, rng') =>
          batch_loop rt rng' (S i) rest
            (predictions ++ [error_entry rt i e scenario])
      | (NonFinite, rng') => (NonFinite, rng')
      end
  end.

(** [p['status'] == 'success'] *)
Definition is_success (p : json) : bool :=
  match p with
  | JObj fields =>
      match dict_get fields "status" with
      | Some (JStr s) => String.eqb s "success"
      | _ => false
      end
  | _ => false
  end.

(** [batch_predict()], the handler of POST /batch-predict. *)
Definition batch_predict (rt : runtime) (rng : nat) (req : request)
    : outcome response * nat :=
  if negb (is_json req) then (Returns not_json_400, rng)
  else
    match get_json req with
    | None => (Returns (error_500 rt BadRequest), rng)
    | Some (JObj fields) =>
        let scenarios := default (JArr []) (dict_get fields "scenarios") in
        if negb (truthy scenarios)
        then (Returns {| body := JObj [("error", JStr "No scenarios provided");
                                       ("status", JStr "error")];
                         status_code := 400 |}, rng)
        else
          match iterate scenarios with
          | Raises e => (Returns (error_500 rt e), rng)
          | NonFinite => (NonFinite, rng)
          | Returns items =>
              match batch_loop rt rng 0 items [] with
              | (Returns predictions, rng') =>
                  (Returns
                     {| body :=
                          JObj [("predictions", JArr predictions);
                                ("total_scenarios",
                                 JInt (Z.of_nat (length items)));
                                ("successful",
                                 JInt (Z.of_nat
                                         (length (List.filter is_success predictions))));
                                ("timestamp", JStr (now rt));
                                ("status", JStr "success")];
                        status_code := 200 |}, rng')
              | (Raises e, rng') => (Returns (error_500 rt e), rng')
              | (NonFinite, rng') => (NonFinite, rng')
              end
          end
    | Some data => (Returns (error_500 rt (no_get data)), rng)
    end.

(** The value [predict_demand] rounds and clamps, from the converted
    fields: the product of the base demand 1000 and the factors, in the
    order of the source, with [distance] the float of [abs(6 - month)],
    [ratio] the quotient [inventory_level / 500] and [u] the draw. *)
Definition raw_prediction (price competitor_price : Q)
    (promotion day_of_week : Z) (distance ratio u : Q) : Q :=
  1000
  * py_max 0 (1 - (price - 10) * (8 # 100))
  * (if (promotion =? 1)%Z then 125 # 100 else 1)
  * (if Qltb price competitor_price then 115 # 100
     else if Qltb competitor_price price then 90 # 100
     else 1)
  * (if ((day_of_week =? 6) || (day_of_week =? 7))%Z then 11 # 10 else 1)
  * (1 + (15 # 100) * distance / 6)
  * py_min 1 ratio
  * (1 + u).

(** The defaults [predict_demand] gives to the fields it reads. *)
Definition field_defaults : list (string * json) :=
  [("price", JInt 10); ("promotion", JInt 0); ("competitor_price", JInt 10);
   ("day_of_week", JInt 1); ("month", JInt 1); ("inventory_level", JInt 500)].

(** The field [key] of a JSON object. *)
Definition json_field (v : json) (key : string) : option json :=
  match v with
  | JObj fields => dict_get fields key
  | _ => None
  end.

(** The required fields an object lacks, in the order of
    [required_fields]. *)
Definition absent_fields (fields : list (string * json)) : list string :=
  List.filter (fun field => match dict_get fields field with
                       | None => true
                       | Some _ => false
                       end) required_fields.

(** JSON scalars that are not strings: [field in v] raises TypeError on
    them. *)
Definition is_scalar (v : json) : bool :=
  match v with
  | JNull | JBool _ | JInt _ | JFloat _ | JNaN | JInfinity _ => true
  | JStr _ | JArr _ | JObj _ => false
  end.

(** The numbers of an everyday request: a boolean, or an integer or a
    float of magnitude at most a billion. *)
Definition plain_number (v : json) : bool :=
  match v with
  | JBool _ => true
  | JInt z => (Z.abs z <=? 1000000000)%Z
  | JFloat q => Qle_bool (Qabs q) 1000000000
  | _ => false
  end.

(** An object in which every field [predict_demand] reads is a plain
    number or absent. *)
Definition plain_fields (fields : list (string * json)) : bool :=
  forallb (fun kv => plain_number (default (snd kv) (dict_get fields (fst kv))))
          field_defaults.

(** ** A runtime and requests for the examples *)

(** A runtime that parses no string, describes an exception by its
    message, or by its class when the model keeps no message, and draws 0
    every time. *)
Definition plain_runtime : runtime :=
  {| parse_float :=
       fun _ => Raises (OtherError "ValueError"
                          "could not convert string to float");
     parse_int :=
       fun _ => Raises (OtherError "ValueError"
                          "invalid literal for int() with base 10");
     str_exn := fun e => match e with
                         | OtherError _ msg => msg
                         | _ => exn_class e
                         end;
     uniform := fun _ => 0;
     now := "2024-11-27T00:00:00" |}.

(** The request of the handler's docstring. *)
Definition example_scenario : json :=
  JObj [("price", JFloat (105 # 10)); ("promotion", JInt 1);
        ("competitor_price", JFloat 11); ("day_of_week", JInt 3);
        ("month", JInt 6); ("inventory_level", JInt 500)].

Definition json_request (v : json) : request :=
  {| is_json := true; get_json := Some v |}.

(** Three scenarios, the second of which is not an object. *)
Definition example_items : list json :=
  [example_scenario; JStr "oops";
   JObj [("price", JInt 30); ("inventory_level", JInt 100)]].

Definition example_batch : json :=
  JObj [("scenarios", JArr example_items)].

(** The response a handler returned ([not_json_400] otherwise), for the
    examples. *)
Definition returned_response (answer : outcome response * nat) : response :=
  match fst answer with Returns r => r | _ => not_json_400 end.

(** The demand a call returned (0 otherwise), for the examples. *)
Definition demand_of (call : outcome Q * nat) : Q :=
  match fst call with Returns d => d | _ => 0 end.

(** The body of a response that was returned (JNull otherwise). *)
Definition returned_body (o : outcome response) : json :=
  match o with Returns r => body r | _ => JNull end.

(** * Properties *)

(** ** Comparisons and divisions *)

Lemma Qltb_lt (x y : Q) : Qltb x y = true <-> x < y.
Proof.
  unfold Qltb. rewrite negb_true_iff, <- not_true_iff_false, Qle_bool_iff.
  split; [apply Qnot_le_lt | apply Qlt_not_le].
Qed.

Lemma Qltb_ge (x y : Q) : Qltb x y = false <-> y <= x.
Proof.
  unfold Qltb. rewrite negb_false_iff. apply Qle_bool_iff.
Qed.

Lemma py_max_spec (a b : Q) :
  (a < b /\ py_max a b = b) \/ (b <= a /\ py_max a b = a).
Proof.
  unfold py_max. destruct (Qltb a b) eqn:E.
  - left. split; [by apply Qltb_lt | done].
  - right. split; [by apply Qltb_ge | done].
Qed.

Lemma Qeq_bool_false (x y : Q) : ~ x == y -> Qeq_bool x y = false.
Proof.
  intros H. destruct (Qeq_bool x y) eqn:E; [|done].
  by apply Qeq_bool_iff in E.
Qed.

Lemma Qeq_bool_true (x y : Q) : x == y -> Qeq_bool x y = true.
Proof. apply Qeq_bool_iff. Qed.

Lemma np_div_finite (a b : Q) :
  ~ b == 0 -> np_div (Finite a) (Finite b) = Finite (a / b).
Proof. intros Hb. cbn [np_div]. by rewrite Qeq_bool_false. Qed.

Lemma py_div_finite (numpy : bool) (a b : Q) :
  ~ b == 0 -> py_div numpy (Finite a) (Finite b) = Returns (Finite (a / b)).
Proof.
  intros Hb. unfold py_div. rewrite (Qeq_bool_false b 0 Hb). cbn [andb].
  by rewrite np_div_finite.
Qed.

Lemma py_div_python_zero (x : float64) (b : Q) :
  b == 0 -> py_div false x (Finite b) = Raises ZeroDivisionError.
Proof. intros Hb. unfold py_div. by rewrite (Qeq_bool_true b 0 Hb). Qed.

Lemma py_div_numpy (x y : float64) : py_div true x y = Returns (np_div x y).
Proof.
  unfold py_div. destruct y as [b | |]; [|done..].
  by rewrite andb_false_r.
Qed.

(** Nothing is greater than +inf, and neither -inf nor nan is greater than
    anything. *)
Lemma f_gt_plus_infinity (x : float64) : f_gt x (Infinite false) = false.
Proof. destruct x as [a | [|] |]; done. Qed.

Lemma f_gt_minus_infinity (y : float64) : f_gt (Infinite true) y = false.
Proof. destruct y as [b | [|] |]; done. Qed.

Lemma f_gt_nan (y : float64) : f_gt NaN y = false.
Proof. done. Qed.

(** ** The scan, step by step *)

Lemma finite_row_of (pt : SimulationPoint) : finite_row (row_of pt) = Some pt.
Proof. by destruct pt. Qed.

Lemma finite_trace_of (pts : list SimulationPoint) :
  finite_trace (map row_of pts) = Some pts.
Proof.
  induction pts as [|pt pts IH]; [done|].
  cbn [map finite_trace]. by rewrite finite_row_of, IH.
Qed.

Section ScanBody.
Variable self : BoschPricingOptimizer.
Variable category : value.
Variables cp bd : Q.

(** With a non-zero current price an iteration stays within the finite
    numbers. *)
Lemma scan_body_finite numpy st p :
  ~ cp == 0 ->
  scan_body self category cp bd (lift_state numpy st) p
  = lift_state
      (Qltb (fin_best_revenue st)
            (revenue (sim_point (get_elasticity self category) cp bd p))
       || numpy)
      (scan_step (get_elasticity self category) cp bd st p).
Proof.
  intros Hcp. unfold scan_body, scan_step. rewrite np_div_finite by done.
  cbn [f_mul f_add f_gt lift_state best_revenue best_price best_is_numpy
       results sim_point revenue].
  destruct (Qltb _ _); unfold lift_state;
    cbn [orb fin_best_price fin_best_revenue fin_results];
    by rewrite map_app.
Qed.

End ScanBody.

Section Scan.
Variables e cp bd : Q.

Lemma scan_results ps st :
  fin_results (fold_left (scan_step e cp bd) ps st)
  = fin_results st ++ map (sim_point e cp bd) ps.
Proof.
  revert st. induction ps as [|p ps IH]; intros st; cbn [fold_left map].
  - by rewrite app_nil_r.
  - rewrite IH. unfold scan_step.
    destruct (Qltb _ _); cbn [fin_results]; by rewrite <- app_assoc.
Qed.

Lemma scan_step_better st p :
  fin_best_revenue st < revenue (sim_point e cp bd p) ->
  fin_best_price (scan_step e cp bd st p) = p /\
  fin_best_revenue (scan_step e cp bd st p) = revenue (sim_point e cp bd p).
Proof.
  intros H. apply Qltb_lt in H. unfold scan_step. by rewrite H.
Qed.

Lemma scan_step_keep st p :
  revenue (sim_point e cp bd p) <= fin_best_revenue st ->
  fin_best_price (scan_step e cp bd st p) = fin_best_price st /\
  fin_best_revenue (scan_step e cp bd st p) = fin_best_revenue st.
Proof.
  intros H. apply Qltb_ge in H. unfold scan_step. by rewrite H.
Qed.

Lemma scan_first_max ps st :
  let st' := fold_left (scan_step e cp bd) ps st in
  first_max e cp bd (fin_best_price st) (fin_best_revenue st) ps
            (fin_best_price st') (fin_best_revenue st').
Proof.
  revert st. induction ps as [|p ps IH]; intros st; cbn [fold_left].
  - left. repeat split. constructor.
  - specialize (IH (scan_step e cp bd st p)). cbv zeta in IH.
    set (st' := fold_left _ _ _) in *.
    destruct (Qlt_le_dec (fin_best_revenue st) (revenue (sim_point e cp bd p)))
      as [Hlt | Hge].
    + destruct (scan_step_better st p Hlt) as [Ep Er].
      rewrite Ep, Er in IH. right.
      destruct IH as [(Hp & Hr & Hall)
                     | (l1 & q & l2 & -> & Hp & Hr & Hq & H1 & H2)].
      * exists [], p, ps. rewrite Hp, Hr.
        do 3 (split; [done|]). split; [done|]. split; [constructor|done].
      * exists (p :: l1), q, l2.
        do 3 (split; [done|]). split; [by etrans|].
        split; [constructor; auto|done].
    + destruct (scan_step_keep st p Hge) as [Ep Er].
      rewrite Ep, Er in IH.
      destruct IH as [(Hp & Hr & Hall)
                     | (l1 & q & l2 & -> & Hp & Hr & Hq & H1 & H2)].
      * left. repeat split; auto.
      * right. exists (p :: l1), q, l2.
        do 4 (split; [done|]).
        split; [constructor; auto; by eapply Qle_lt_trans|done].
Qed.

Lemma scan_best_ge ps st :
  fin_best_revenue st <= fin_best_revenue (fold_left (scan_step e cp bd) ps st).
Proof.
  destruct (scan_first_max ps st) as [(_ & -> & _) | (? & ? & ? & _ & _ & _ & Hlt & _)].
  - apply Qle_refl.
  - by apply Qlt_le_weak.
Qed.
End Scan.

Lemma first_max_cases e cp bd bp br ps bp' br' :
  first_max e cp bd bp br ps bp' br' ->
  ((bp' = bp /\ br' = br) \/
   (In bp' ps /\ br' = revenue (sim_point e cp bd bp') /\ br < br')) /\
  Forall (fun q => revenue (sim_point e cp bd q) <= br') ps.
Proof.
  intros [(-> & -> & Hall) | (l1 & p & l2 & -> & -> & Hr & Hlt & H1 & H2)].
  - split; [by left | done].
  - split.
    + right. split; [|done]. apply in_or_app. right. by left.
    + apply Forall_app. split.
      * eapply Forall_impl; [exact H1|]. intros q Hq. by apply Qlt_le_weak.
      * constructor; [|done]. rewrite Hr. apply Qle_refl.
Qed.

Lemma scan_is_first_max e cp bd lo hi :
  first_max e cp bd cp (cp * bd) (linspace lo hi 50)
    (fin_best_price (scan e cp bd lo hi))
    (fin_best_revenue (scan e cp bd lo hi)).
Proof.
  unfold scan.
  apply (scan_first_max e cp bd (linspace lo hi 50)
           {| fin_best_price := cp; fin_best_revenue := cp * bd;
              fin_results := [] |}).
Qed.

(** ** The scan of a non-zero current price *)

Section FiniteScan.
Variable self : BoschPricingOptimizer.
Variable category : value.
Variables cp bd : Q.
Hypothesis Hcp : ~ cp == 0.

Lemma scan_finite ps numpy st :
  exists numpy',
    fold_left (scan_body self category cp bd) ps (lift_state numpy st)
    = lift_state numpy'
        (fold_left (scan_step (get_elasticity self category) cp bd) ps st) /\
    (numpy' = numpy \/
     fin_best_revenue st
     < fin_best_revenue
         (fold_left (scan_step (get_elasticity self category) cp bd) ps st)).
Proof.
  revert numpy st. induction ps as [|p ps IH]; intros numpy st.
  - exists numpy. split; [done | by left].
  - cbn [fold_left]. rewrite scan_body_finite by done.
    set (e := get_elasticity self category) in *.
    destruct (IH (Qltb (fin_best_revenue st) (revenue (sim_point e cp bd p))
                  || numpy) (scan_step e cp bd st p))
      as (numpy' & Hfold & Hflag).
    exists numpy'. split; [done|].
    destruct (Qlt_le_dec (fin_best_revenue st) (revenue (sim_point e cp bd p)))
      as [Hlt | Hge].
    + right. eapply Qlt_le_trans; [exact Hlt|].
      destruct (scan_step_better e cp bd st p Hlt) as [_ <-].
      apply scan_best_ge.
    + destruct (scan_step_keep e cp bd st p Hge) as [_ Hkeep].
      pose proof Hge as Hb. apply Qltb_ge in Hb. rewrite Hb in Hflag.
      cbn [orb] in Hflag. rewrite Hkeep in Hflag. exact Hflag.
Qed.

(** The loop variables after the scan are those of the fold over
    rationals. *)
Lemma scan_prices_finite lo hi :
  exists numpy,
    scan_prices self category cp bd lo hi
    = lift_state numpy (scan (get_elasticity self category) cp bd lo hi) /\
    (numpy = false \/
     cp * bd
     < fin_best_revenue (scan (get_elasticity self category) cp bd lo hi)).
Proof.
  exact (scan_finite (linspace lo hi 50) false
           {| fin_best_price := cp; fin_best_revenue := cp * bd;
              fin_results := [] |}).
Qed.

(** With a zero base demand every candidate earns zero: the best pair is
    never replaced. *)
Lemma scan_zero_demand lo hi :
  bd == 0 ->
  ~ cp * bd
    < fin_best_revenue (scan (get_elasticity self category) cp bd lo hi).
Proof.
  intros Hbd Hlt.
  destruct (first_max_cases _ _ _ _ _ _ _ _
              (scan_is_first_max (get_elasticity self category) cp bd lo hi))
    as [[[_ Hrev] | (_ & Hrev & _)] _]; rewrite Hrev in Hlt.
  - by apply Qlt_irrefl in Hlt.
  - revert Hlt.
    generalize (fin_best_price (scan (get_elasticity self category) cp bd lo hi)).
    generalize (get_elasticity self category).
    intros e q Hlt.
    assert (revenue (sim_point e cp bd q) == 0) as E
      by (cbn [sim_point revenue]; rewrite Hbd; ring).
    assert (cp * bd == 0) as E' by (rewrite Hbd; ring).
    rewrite E, E' in Hlt. by apply Qlt_irrefl in Hlt.
Qed.

End FiniteScan.

(** ** The scan of a zero current price *)

Section ZeroPriceScan.
Variable self : BoschPricingOptimizer.
Variable category : value.
Variables cp bd : Q.
Hypothesis Hcp : cp == 0.
Hypothesis Hbd : 0 <= bd.

(** The revenue of a candidate: +inf when it gains, and otherwise -inf or
    nan. *)
Lemma revenue_at_zero_price p :
  let e := get_elasticity self category in
  let test_revenue :=
    f_mul (Finite p)
      (f_mul (Finite bd)
         (f_add (Finite 1)
            (f_mul (Finite e) (np_div (Finite (p - cp)) (Finite cp))))) in
  (gains_at_zero_price e bd p = true -> test_revenue = Infinite false) /\
  (gains_at_zero_price e bd p = false ->
   test_revenue = Infinite true \/ test_revenue = NaN).
Proof.
  cbv zeta. unfold gains_at_zero_price, is_negative.
  set (e := get_elasticity self category). clearbody e.
  cbn [np_div]. rewrite (Qeq_bool_true cp 0 Hcp). unfold is_negative.
  destruct (Qeq_bool (p - cp) 0) eqn:E1; cbn [f_mul f_add].
  { apply Qeq_bool_iff in E1. rewrite (Qeq_bool_true p 0) by lra.
    rewrite andb_false_r. split; [done | by right]. }
  apply Qeq_bool_neq in E1.
  rewrite (Qeq_bool_false p 0) by lra. rewrite andb_true_r.
  destruct (Qeq_bool e 0) eqn:E2; cbn [f_mul f_add].
  { apply Qeq_bool_iff in E2.
    assert (Qltb 0 e = false) as -> by (apply Qltb_ge; lra).
    split; [done | by right]. }
  apply Qeq_bool_neq in E2.
  destruct (Qeq_bool bd 0) eqn:E3; cbn [f_mul f_add].
  { apply Qeq_bool_iff in E3.
    assert (Qltb 0 bd = false) as -> by (apply Qltb_ge; lra).
    rewrite andb_false_r. split; [done | by right]. }
  apply Qeq_bool_neq in E3.
  assert (Qltb 0 bd = true) as -> by (apply Qltb_lt; lra).
  unfold is_negative.
  assert (Qltb bd 0 = false) as -> by (apply Qltb_ge; lra).
  rewrite andb_true_r.
  assert (Qltb (p - cp) 0 = Qltb p 0) as ->.
  { destruct (Qltb p 0) eqn:E4.
    - apply Qltb_lt. apply Qltb_lt in E4. lra.
    - apply Qltb_ge. apply Qltb_ge in E4. lra. }
  destruct (Qltb 0 e) eqn:E5.
  - assert (Qltb e 0 = false) as -> by (apply Qltb_ge; apply Qltb_lt in E5; lra).
    split; [|done]. intros _. by destruct (Qltb p 0).
  - assert (Qltb e 0 = true) as ->
      by (apply Qltb_lt; apply Qltb_ge in E5; lra).
    split; [done|]. intros _. left. by destruct (Qltb p 0).
Qed.

Lemma scan_body_at_zero_gain st p b :
  gains_at_zero_price (get_elasticity self category) bd p = true ->
  best_revenue st = Finite b ->
  best_revenue (scan_body self category cp bd st p) = Infinite false /\
  best_is_numpy (scan_body self category cp bd st p) = true.
Proof.
  intros Hgain Hbest. unfold scan_body.
  rewrite (proj1 (revenue_at_zero_price p) Hgain), Hbest. by cbn.
Qed.

Lemma scan_body_at_zero_keep st p :
  gains_at_zero_price (get_elasticity self category) bd p = false
  \/ best_revenue st = Infinite false ->
  best_price (scan_body self category cp bd st p) = best_price st /\
  best_revenue (scan_body self category cp bd st p) = best_revenue st /\
  best_is_numpy (scan_body self category cp bd st p) = best_is_numpy st.
Proof.
  intros Hkeep. unfold scan_body.
  match goal with
  | |- context [f_gt ?x ?y] => assert (f_gt x y = false) as ->; [|done]
  end.
  destruct Hkeep as [Hno | ->]; [|apply f_gt_plus_infinity].
  destruct (proj2 (revenue_at_zero_price p) Hno) as [-> | ->].
  - apply f_gt_minus_infinity.
  - apply f_gt_nan.
Qed.

(** Once the best revenue is +inf it stays. *)
Lemma scan_after_gain ps st :
  best_revenue st = Infinite false -> best_is_numpy st = true ->
  best_revenue (fold_left (scan_body self category cp bd) ps st)
    = Infinite false /\
  best_is_numpy (fold_left (scan_body self category cp bd) ps st) = true.
Proof.
  revert st. induction ps as [|p ps IH]; intros st Hrev Hnp; [done|].
  cbn [fold_left].
  destruct (scan_body_at_zero_keep st p (or_intror Hrev)) as (_ & Er & En).
  apply IH; congruence.
Qed.

(** The best pair is replaced exactly when some candidate gains. *)
Lemma scan_at_zero_price ps st b :
  best_revenue st = Finite b -> best_is_numpy st = false ->
  let st' := fold_left (scan_body self category cp bd) ps st in
  if existsb (gains_at_zero_price (get_elasticity self category) bd) ps
  then best_revenue st' = Infinite false /\ best_is_numpy st' = true
  else best_price st' = best_price st /\ best_revenue st' = Finite b /\
       best_is_numpy st' = false.
Proof.
  revert st. induction ps as [|p ps IH]; intros st Hrev Hnp; [done|].
  cbn [fold_left existsb].
  destruct (gains_at_zero_price _ bd p) eqn:Hgain; cbn [orb].
  - destruct (scan_body_at_zero_gain st p b Hgain Hrev) as [Er En].
    by apply scan_after_gain.
  - destruct (scan_body_at_zero_keep st p (or_introl Hgain)) as (Ep & Er & En).
    specialize (IH (scan_body self category cp bd st p)).
    rewrite Ep, Er, En in IH. by apply IH.
Qed.

Lemma scan_prices_at_zero_price lo hi :
  if zero_price_gain (get_elasticity self category) bd lo hi
  then best_revenue (scan_prices self category cp bd lo hi) = Infinite false /\
       best_is_numpy (scan_prices self category cp bd lo hi) = true
  else best_price (scan_prices self category cp bd lo hi) = cp /\
       best_revenue (scan_prices self category cp bd lo hi)
         = Finite (cp * bd) /\
       best_is_numpy (scan_prices self category cp bd lo hi) = false.
Proof.
  exact (scan_at_zero_price (linspace lo hi 50)
           {| best_price := cp; best_revenue := Finite (cp * bd);
              best_is_numpy := false; results := [] |}
           (cp * bd) eq_refl eq_refl).
Qed.

End ZeroPriceScan.

(** ** The grid of candidate prices *)

Lemma lookup_map {A B : Type} (f : A -> B) (l : list A) (i : nat) :
  map f l !! i = f <$> (l !! i).
Proof. exact (list_lookup_fmap f l i). Qed.

Lemma linspace_length (a b : Q) (n : nat) : length (linspace a b n) = n.
Proof.
  destruct n as [|[|d]]; [done..|].
  unfold linspace. rewrite length_app, length_map, length_seq. cbn. lia.
Qed.

Lemma inject_nat_pos (n : nat) : 0 < inject_Z (Z.of_nat (S n)).
Proof.
  change 0 with (inject_Z 0). rewrite <- Zlt_Qlt. lia.
Qed.

(** Sample [i] of a grid of [d + 2] points. *)
Lemma linspace_lookup (a b : Q) (d i : nat) :
  (i < S (S d))%nat ->
  exists q, linspace a b (S (S d)) !! i = Some q /\
            q == a + inject_Z (Z.of_nat i) * ((b - a) / inject_Z (Z.of_nat (S d))).
Proof.
  intros Hi. unfold linspace.
  pose proof (inject_nat_pos d) as Hd.
  destruct (decide (i < S d)%nat) as [Hlt | Hge].
  - eexists. split.
    + rewrite lookup_app_l by (rewrite length_map, length_seq; lia).
      rewrite lookup_map, lookup_seq_lt by lia. reflexivity.
    + cbn [Nat.add]. ring.
  - assert (i = S d) as -> by lia. exists b. split.
    + apply list_lookup_middle. by rewrite length_map, length_seq.
    + field. lra.
Qed.

Lemma linspace_last (a b : Q) (d : nat) :
  linspace a b (S (S d)) !! S d = Some b.
Proof.
  unfold linspace. apply list_lookup_middle.
  by rewrite length_map, length_seq.
Qed.

(** Samples are ascending when [a <= b], strictly when [a < b]. *)
Lemma linspace_ascending (a b : Q) (d i j : nat) (qi qj : Q) :
  a <= b -> (i < j)%nat ->
  linspace a b (S (S d)) !! i = Some qi ->
  linspace a b (S (S d)) !! j = Some qj ->
  qi <= qj /\ (a < b -> qi < qj).
Proof.
  intros Hab Hij Hi Hj.
  assert (j < S (S d))%nat as Hjn.
  { apply lookup_lt_Some in Hj. by rewrite linspace_length in Hj. }
  destruct (linspace_lookup a b d i) as (qi' & Hi' & Ei); [lia|].
  destruct (linspace_lookup a b d j) as (qj' & Hj' & Ej); [lia|].
  rewrite Hi in Hi'. rewrite Hj in Hj'.
  injection Hi' as <-. injection Hj' as <-.
  pose proof (inject_nat_pos d) as Hd.
  set (n := inject_Z (Z.of_nat (S d))) in *.
  assert (inject_Z (Z.of_nat i) < inject_Z (Z.of_nat j)) as Hq
    by (rewrite <- Zlt_Qlt; lia).
  set (qi0 := inject_Z (Z.of_nat i)) in *.
  set (qj0 := inject_Z (Z.of_nat j)) in *.
  assert (0 <= (b - a) / n) as Hstep.
  { apply Qle_shift_div_l; [done|]. lra. }
  rewrite Ei, Ej. split.
  - nra.
  - intros Hlt. assert (0 < (b - a) / n).
    { apply Qlt_shift_div_l; [done|]. lra. }
    nra.
Qed.

(** Every sample lies between the bounds. *)
Lemma linspace_bounds (a b : Q) (d : nat) (q : Q) :
  a <= b -> In q (linspace a b (S (S d))) -> a <= q /\ q <= b.
Proof.
  intros Hab Hin. apply list_elem_of_In, list_elem_of_lookup in Hin as [i Hi].
  assert (i < S (S d))%nat as Hn.
  { apply lookup_lt_Some in Hi. by rewrite linspace_length in Hi. }
  destruct (linspace_lookup a b d i Hn) as (q' & Hi' & E).
  rewrite Hi in Hi'. injection Hi' as <-.
  pose proof (inject_nat_pos d) as Hd.
  assert (0 <= inject_Z (Z.of_nat i) <= inject_Z (Z.of_nat (S d))) as [H0 H1].
  { change 0 with (inject_Z 0). rewrite <- !Zle_Qle. lia. }
  set (n := inject_Z (Z.of_nat (S d))) in *.
  set (k := inject_Z (Z.of_nat i)) in *.
  assert (q == a + (k / n) * (b - a)) as E' by (rewrite E; field; lra).
  assert (0 <= k / n) by (apply Qle_shift_div_l; [done|]; lra).
  assert (k / n <= 1) by (apply Qle_shift_div_r; [done|]; lra).
  rewrite E'. split; nra.
Qed.

Lemma forecast_demand_nonneg self product_data d :
  forecast_demand self product_data = Returns d -> 0 <= d.
Proof.
  unfold forecast_demand.
  destruct (model_predict _ _) as [raw | |]; [|done..].
  cbn. intros [= <-].
  destruct (py_max_spec 0 raw) as [[Hlt ->] | [Hle ->]]; lra.
Qed.

(** ** optimize_price, case by case *)

Lemma optimize_price_data self product_data cp category min_price max_price :
  snd (optimize_price self product_data cp category min_price max_price)
  = <["Price" := VNum cp]> product_data.
Proof. reflexivity. Qed.

(** The outcome of a call, from the forecast: with a zero current price
    the call returns inf when a candidate gains and raises otherwise; with
    a zero base revenue it raises; and otherwise it returns the result of
    the fold over rationals. *)
Lemma optimize_price_outcome self product_data cp category min_price max_price :
  fst (optimize_price self product_data cp category min_price max_price)
  = match forecast_demand self (<["Price" := VNum cp]> product_data) with
    | Returns bd =>
        if Qeq_bool cp 0
        then (if zero_price_gain (get_elasticity self category) bd
                   (lower_bound cp min_price) (upper_bound cp max_price)
              then NonFinite else Raises ZeroDivisionError)
        else if Qeq_bool (cp * bd) 0 then Raises ZeroDivisionError
        else Returns (result_of (get_elasticity self category) cp bd
                        (lower_bound cp min_price) (upper_bound cp max_price))
    | Raises e => Raises e
    | NonFinite => NonFinite
    end.
Proof.
  unfold optimize_price. cbn [fst].
  destruct (forecast_demand _ _) as [bd | e |] eqn:Hbd; [|done..].
  apply forecast_demand_nonneg in Hbd.
  cbn [mbind outcome_bind].
  fold (lower_bound cp min_price). fold (upper_bound cp max_price).
  set (lo := lower_bound cp min_price). set (hi := upper_bound cp max_price).
  destruct (Qeq_bool cp 0) eqn:Ecp.
  - apply Qeq_bool_iff in Ecp.
    pose proof (scan_prices_at_zero_price self category cp bd Ecp Hbd lo hi)
      as Hscan.
    destruct (zero_price_gain _ bd lo hi).
    + destruct Hscan as [-> ->]. cbn [orb]. by rewrite !py_div_numpy.
    + destruct Hscan as (-> & -> & ->). cbn [orb best_price].
      destruct (Qltb 0 bd).
      * rewrite py_div_numpy. cbn [mbind outcome_bind].
        rewrite py_div_python_zero; done.
      * rewrite (py_div_python_zero _ (cp * bd)); [reflexivity|].
        rewrite Ecp. ring.
  - apply Qeq_bool_neq in Ecp.
    destruct (scan_prices_finite self category cp bd Ecp lo hi)
      as (numpy & -> & Hnumpy).
    unfold lift_state. cbn [best_price best_revenue best_is_numpy results].
    cbn [f_sub f_add f_opp].
    destruct (Qeq_bool (cp * bd) 0) eqn:Erev.
    + apply Qeq_bool_iff in Erev.
      assert (bd == 0) as Hzero.
      { apply Qmult_integral in Erev as [?|?]; done. }
      assert (numpy = false) as ->.
      { destruct Hnumpy as [?|Hlt]; [done|].
        by apply scan_zero_demand in Hlt. }
      assert (Qltb 0 bd = false) as -> by (apply Qltb_ge; lra).
      cbn [orb]. rewrite (py_div_python_zero _ (cp * bd)); [reflexivity|done].
    + apply Qeq_bool_neq in Erev. rewrite !py_div_finite by done.
      cbn [mbind outcome_bind f_mul to_finite].
      rewrite finite_trace_of. reflexivity.
Qed.

(** A call returns exactly when the forecast returns and neither the
    current price nor the base revenue is zero. *)
Lemma optimize_price_returns self product_data cp category min_price max_price r :
  fst (optimize_price self product_data cp category min_price max_price)
    = Returns r <->
  exists bd,
    forecast_demand self (<["Price" := VNum cp]> product_data) = Returns bd /\
    ~ cp == 0 /\ ~ cp * bd == 0 /\
    r = result_of (get_elasticity self category) cp bd
          (lower_bound cp min_price) (upper_bound cp max_price).
Proof.
  rewrite optimize_price_outcome. split.
  - destruct (forecast_demand _ _) as [bd | e |]; [|done..].
    destruct (Qeq_bool cp 0) eqn:Ecp; [by destruct (zero_price_gain _ _ _ _)|].
    destruct (Qeq_bool (cp * bd) 0) eqn:Erev; [done|].
    intros [= <-]. exists bd. apply Qeq_bool_neq in Ecp, Erev. done.
  - intros (bd & -> & Hcp & Hrev & ->).
    destruct (Qeq_bool cp 0) eqn:Ecp; [by apply Qeq_bool_iff in Ecp|].
    destruct (Qeq_bool (cp * bd) 0) eqn:Erev; [by apply Qeq_bool_iff in Erev|].
    done.
Qed.

(** No candidate gains at a zero current price when the elasticity is not
    positive, nor when the window is the default one, whose candidates are
    all zero. *)
Lemma zero_price_gain_false e bd lo hi :
  (forall p, In p (linspace lo hi 50) -> gains_at_zero_price e bd p = false) ->
  zero_price_gain e bd lo hi = false.
Proof.
  intros H. unfold zero_price_gain. apply not_true_iff_false.
  intros Hex. apply existsb_exists in Hex as (p & Hin & Hgain).
  rewrite (H p Hin) in Hgain. discriminate Hgain.
Qed.


Lemma zero_price_gain_zero_demand e bd lo hi :
  bd <= 0 -> zero_price_gain e bd lo hi = false.
Proof.
  intros Hbd. apply zero_price_gain_false. intros p _.
  unfold gains_at_zero_price.
  assert (Qltb 0 bd = false) as -> by (by apply Qltb_ge).
  by rewrite andb_false_r.
Qed.

Lemma zero_price_gain_default e bd cp :
  cp == 0 ->
  zero_price_gain e bd (lower_bound cp None) (upper_bound cp None) = false.
Proof.
  intros Hcp. apply zero_price_gain_false. intros p Hin.
  cbn [lower_bound upper_bound default from_option id] in Hin.
  apply (linspace_bounds _ _ 48) in Hin as [Hlo Hhi]; [|lra].
  unfold gains_at_zero_price.
  rewrite (Qeq_bool_true p 0) by lra. by rewrite andb_false_r.
Qed.

(** What [zero_price_gain] decides. *)
Lemma zero_price_gain_spec e bd lo hi :
  zero_price_gain e bd lo hi = true <->
  0 < e /\ 0 < bd /\ Exists (fun p => ~ p == 0) (linspace lo hi 50).
Proof.
  unfold zero_price_gain. rewrite existsb_exists. split.
  - intros (p & Hin & Hgain). unfold gains_at_zero_price in Hgain.
    apply andb_true_iff in Hgain as [Hgain Hp].
    apply andb_true_iff in Hgain as [He Hbd].
    apply Qltb_lt in He, Hbd. do 2 (split; [done|]).
    apply List.Exists_exists. exists p. split; [done|].
    apply negb_true_iff in Hp. by apply Qeq_bool_neq.
  - intros (He & Hbd & Hex). apply List.Exists_exists in Hex as (p & Hin & Hp).
    exists p. split; [done|]. unfold gains_at_zero_price.
    apply Qltb_lt in He, Hbd. rewrite He, Hbd.
    by rewrite (Qeq_bool_false p 0 Hp).
Qed.

(** With the default window the call returns or raises unless the
    estimator itself left the finite numbers. *)
Lemma default_window_non_finite self product_data cp category :
  fst (optimize_price self product_data cp category None None) = NonFinite ->
  forecast_demand self (<["Price" := VNum cp]> product_data) = NonFinite.
Proof.
  rewrite optimize_price_outcome.
  destruct (forecast_demand _ _) as [bd | e |]; [|done..].
  destruct (Qeq_bool cp 0) eqn:Ecp.
  - apply Qeq_bool_iff in Ecp. by rewrite zero_price_gain_default.
  - by destruct (Qeq_bool (cp * bd) 0).
Qed.

Lemma result_of_trace e cp bd lo hi :
  simulation_results (result_of e cp bd lo hi)
  = map (sim_point e cp bd) (linspace lo hi 50).
Proof.
  unfold result_of, scan. cbn [simulation_results].
  by rewrite scan_results.
Qed.

Lemma result_of_prices e cp bd lo hi :
  map price (result_of e cp bd lo hi).(simulation_results) = linspace lo hi 50.
Proof.
  rewrite result_of_trace, map_map. cbn [sim_point price]. apply map_id.
Qed.

Lemma result_of_first_max e cp bd lo hi :
  first_max e cp bd cp (cp * bd) (linspace lo hi 50)
    (optimal_price (result_of e cp bd lo hi))
    (optimal_revenue (result_of e cp bd lo hi)).
Proof.
  unfold result_of, scan. cbn [optimal_price optimal_revenue].
  apply (scan_first_max e cp bd (linspace lo hi 50)
           {| fin_best_price := cp; fin_best_revenue := cp * bd; fin_results := [] |}).
Qed.

(** The prices of a returned trace ascend with the index when the window
    is well formed, strictly when it is not a single price. *)
Lemma result_of_ascending e cp bd lo hi i j pi pj :
  lo <= hi -> (i < j)%nat ->
  simulation_results (result_of e cp bd lo hi) !! i = Some pi ->
  simulation_results (result_of e cp bd lo hi) !! j = Some pj ->
  price pi <= price pj /\ (lo < hi -> price pi < price pj).
Proof.
  intros Hle Hij Hi Hj.
  assert (forall k pt,
            simulation_results (result_of e cp bd lo hi) !! k = Some pt ->
            linspace lo hi 50 !! k = Some (price pt)) as Hinv.
  { intros k pt Hk. rewrite <- (result_of_prices e cp bd lo hi).
    by rewrite lookup_map, Hk. }
  by apply (linspace_ascending lo hi 48 i j); [| |apply Hinv..].
Qed.

(** ** forecast_demand *)

(** C8: the demand returned by forecast_demand is the estimator's raw
    output clamped at zero: a negative raw estimate gives exactly 0 and no
    error, any other raw estimate is returned as it is. *)
Theorem forecast_demand_clamps self product_data raw :
  model_predict self (prepare_features self product_data) = Returns raw ->
  exists d,
    forecast_demand self product_data = Returns d /\
    0 <= d /\
    (raw < 0 -> d = 0) /\
    (0 <= raw -> d == raw).
Proof.
  intros Hraw. unfold forecast_demand. rewrite Hraw. cbn.
  exists (py_max 0 raw). split; [done|].
  destruct (py_max_spec 0 raw) as [[Hlt ->] | [Hle ->]].
  - split; [lra|]. split; [lra|done].
  - split; [lra|]. split; [done|lra].
Qed.

(** An estimator that raises makes forecast_demand raise the same error. *)
Lemma forecast_demand_raises self product_data e :
  model_predict self (prepare_features self product_data) = Raises e ->
  forecast_demand self product_data = Raises e.
Proof. intros H. unfold forecast_demand. by rewrite H. Qed.

(** ** optimize_price: the caller's dictionary *)

(** C10: optimize_price updates the caller's product_data in place: after
    the call (whether it returns or raises) the dictionary is the old one
    with 'Price' set to current_price, every other entry is unchanged, and
    the baseline forecast is taken on the updated dictionary. *)
Theorem optimize_price_mutates_product_data
    self product_data cp category min_price max_price :
  snd (optimize_price self product_data cp category min_price max_price)
    = <["Price" := VNum cp]> product_data /\
  snd (optimize_price self product_data cp category min_price max_price)
    !! "Price" = Some (VNum cp) /\
  (forall key, key <> "Price" ->
     snd (optimize_price self product_data cp category min_price max_price)
       !! key = product_data !! key) /\
  (forall r,
     fst (optimize_price self product_data cp category min_price max_price)
       = Returns r ->
     exists bd,
       forecast_demand self (<["Price" := VNum cp]> product_data) = Returns bd /\
       current_revenue r = cp * bd) /\
  (forall e,
     forecast_demand self (<["Price" := VNum cp]> product_data) = Raises e ->
     fst (optimize_price self product_data cp category min_price max_price)
       = Raises e).
Proof.
  rewrite optimize_price_data. split; [done|].
  split; [apply lookup_insert_eq|].
  split; [intros key Hkey; by apply lookup_insert_ne|].
  split.
  - intros r Hr. apply optimize_price_returns in Hr as (bd & Hbd & _ & _ & ->).
    by exists bd.
  - intros e He. by rewrite optimize_price_outcome, He.
Qed.

(** ** optimize_price: elasticity lookup *)

Lemma sim_point_demand e cp bd p :
  demand (sim_point e cp bd p)
  = bd * (1 + e * price_change_pct (sim_point e cp bd p)).
Proof. reflexivity. Qed.

Lemma sim_point_revenue e cp bd p :
  revenue (sim_point e cp bd p)
  = price (sim_point e cp bd p) * demand (sim_point e cp bd p).
Proof. reflexivity. Qed.

(** Every point of a returned trace has revenue = price × demand. *)
Lemma trace_revenue_is_price_times_demand
    self product_data cp category min_price max_price r :
  fst (optimize_price self product_data cp category min_price max_price)
    = Returns r ->
  Forall (fun pt => revenue pt = price pt * demand pt) (simulation_results r).
Proof.
  intros Hr. apply optimize_price_returns in Hr as (bd & _ & _ & _ & ->).
  rewrite result_of_trace. apply List.Forall_forall. intros pt Hin.
  apply in_map_iff in Hin as (p & <- & _). apply sim_point_revenue.
Qed.

(** C9: a category that is not a key of the elasticity table raises
    nothing of its own: the lookup yields -1.0 and the call is the call
    made with a table that maps the category to -1.0; it raises only what
    the forecast raises, or ZeroDivisionError; it returns whenever the
    forecast is positive and the current price is not zero, and the trace
    it returns has 50 points, point [i] being computed from candidate [i]
    of the grid with elasticity -1.0: price_change_pct = (p - current) /
    current, demand = base_demand * (1 + -1.0 * price_change_pct), revenue
    = p * demand. *)
Theorem unknown_category_uses_default_elasticity
    self product_data cp (c : string) min_price max_price :
  elasticities self !! c = None ->
  get_elasticity self (VStr c) = -1 /\
  optimize_price self product_data cp (VStr c) min_price max_price
    = optimize_price (with_elasticities self (<[c := -1]> (elasticities self)))
        product_data cp (VStr c) min_price max_price /\
  (forall e,
     fst (optimize_price self product_data cp (VStr c) min_price max_price)
       = Raises e ->
     forecast_demand self (<["Price" := VNum cp]> product_data) = Raises e
     \/ e = ZeroDivisionError) /\
  (forall bd,
     forecast_demand self (<["Price" := VNum cp]> product_data) = Returns bd ->
     ~ cp == 0 -> 0 < bd ->
     exists r,
       fst (optimize_price self product_data cp (VStr c) min_price max_price)
         = Returns r) /\
  (forall r,
     fst (optimize_price self product_data cp (VStr c) min_price max_price)
       = Returns r ->
     exists bd,
       forecast_demand self (<["Price" := VNum cp]> product_data) = Returns bd /\
       length (simulation_results r) = 50%nat /\
       (forall i, (i < 50)%nat ->
          exists p pt,
            linspace (lower_bound cp min_price) (upper_bound cp max_price) 50
              !! i = Some p /\
            simulation_results r !! i = Some pt /\
            price pt = p /\
            price_change_pct pt = (p - cp) / cp /\
            demand pt = bd * (1 + -1 * ((p - cp) / cp)) /\
            revenue pt = p * (bd * (1 + -1 * ((p - cp) / cp)))) /\
       Forall (fun pt => demand pt = bd * (1 + -1 * price_change_pct pt) /\
                         price_change_pct pt = (price pt - cp) / cp)
              (simulation_results r)).
Proof.
  intros Hc.
  assert (get_elasticity self (VStr c) = -1) as He
    by (cbn [get_elasticity]; by rewrite Hc).
  split; [done|]. split; [|split; [|split]].
  - apply injective_projections.
    + rewrite !optimize_price_outcome, He.
      assert (get_elasticity
                (with_elasticities self (<[c := -1]> (elasticities self)))
                (VStr c) = -1) as ->.
      { cbn [get_elasticity with_elasticities elasticities].
        by rewrite lookup_insert_eq. }
      reflexivity.
    + by rewrite !optimize_price_data.
  - intros e. rewrite optimize_price_outcome.
    destruct (forecast_demand _ _) as [bd | e' |];
      [|intros [= ->]; by left|done].
    destruct (Qeq_bool cp 0).
    + destruct (zero_price_gain _ _ _ _); [done|]. intros [= <-]. by right.
    + destruct (Qeq_bool _ 0); [|done]. intros [= <-]. by right.
  - intros bd Hbd Hcp Hpos. eexists. apply optimize_price_returns.
    exists bd. do 2 (split; [done|]). split; [|done].
    intros Hrev. apply Qmult_integral in Hrev as [?|?]; [done|lra].
  - intros r Hr. apply optimize_price_returns in Hr as (bd & Hbd & _ & _ & ->).
    exists bd. split; [done|]. rewrite He, result_of_trace.
    split; [by rewrite length_map, linspace_length|]. split.
    + intros i Hi.
      destruct (linspace_lookup (lower_bound cp min_price)
                  (upper_bound cp max_price) 48 i Hi) as (p & Hp & _).
      exists p, (sim_point (-1) cp bd p). split; [done|].
      split; [by rewrite lookup_map, Hp|]. done.
    + apply List.Forall_forall. intros pt Hin.
      apply in_map_iff in Hin as (p & <- & _). done.
Qed.

(** ** optimize_price: the best pair *)

(** C3: with valid bounds, the returned optimal_revenue is at least
    base_revenue = current_price × base_demand, which the result reports as
    current_revenue. *)
Theorem optimal_revenue_at_least_base
    self product_data cp category min_price max_price r :
  0 < lower_bound cp min_price ->
  lower_bound cp min_price <= upper_bound cp max_price ->
  fst (optimize_price self product_data cp category min_price max_price)
    = Returns r ->
  (exists bd,
     forecast_demand self (<["Price" := VNum cp]> product_data) = Returns bd /\
     current_revenue r = cp * bd) /\
  current_revenue r <= optimal_revenue r.
Proof.
  intros _ _ Hr. apply optimize_price_returns in Hr as (bd & Hbd & _ & _ & ->).
  split; [by exists bd|].
  cbn [result_of current_revenue optimal_revenue]. unfold scan.
  apply (scan_best_ge (get_elasticity self category) cp bd _
           {| fin_best_price := cp; fin_best_revenue := cp * bd; fin_results := [] |}).
Qed.

Lemma first_max_trace e cp bd bp br ps bp' br' :
  first_max e cp bd bp br ps bp' br' ->
  earliest_best bp br (map (sim_point e cp bd) ps) bp' br'.
Proof.
  intros [(Hp & Hr & Hall) | (l1 & p & l2 & -> & Hp & Hr & Hlt & H1 & H2)].
  - left. do 2 (split; [done|]). by apply List.Forall_map.
  - right. exists (map (sim_point e cp bd) l1), (sim_point e cp bd p),
             (map (sim_point e cp bd) l2).
    rewrite map_app. cbn [map]. rewrite <- Hr.
    do 4 (split; [done|]). split; by apply List.Forall_map.
Qed.

(** C4: the best pair starts as (current_price, base_revenue) and is
    replaced only by a candidate of strictly greater revenue, so the call
    returns the initial pair when no candidate beats it and otherwise the
    earliest candidate of maximal revenue, which on an ascending grid is
    the one of lowest price; in the symmetric call (current
    price 10, window 9..11, demand 1000, elasticity -1.0) both extreme
    candidates have revenue 9900 < 10000 and optimal_price is exactly 10. *)
Theorem strict_improvement_tie_break :
  (forall self product_data cp category min_price max_price r,
     fst (optimize_price self product_data cp category min_price max_price)
       = Returns r ->
     earliest_best cp (current_revenue r) (simulation_results r)
       (optimal_price r) (optimal_revenue r)) /\
  (forall self product_data cp category min_price max_price r q,
     lower_bound cp min_price <= upper_bound cp max_price ->
     fst (optimize_price self product_data cp category min_price max_price)
       = Returns r ->
     current_revenue r < optimal_revenue r ->
     In q (simulation_results r) ->
     revenue q == optimal_revenue r ->
     optimal_price r <= price q) /\
  (exists r p_lo p_hi,
     fst symmetric_call = Returns r /\
     get_elasticity (constant_estimator 1000) (VStr "Frozen") = -1 /\
     current_revenue r == 10000 /\
     simulation_results r !! 0%nat = Some p_lo /\
     simulation_results r !! 49%nat = Some p_hi /\
     price p_lo == 9 /\ revenue p_lo == 9900 /\
     price p_hi == 11 /\ revenue p_hi == 9900 /\
     optimal_price r = 10 /\ optimal_revenue r == 10000).
Proof.
  split; [|split].
  - intros self product_data cp category min_price max_price r Hr.
    apply optimize_price_returns in Hr as (bd & _ & _ & _ & ->).
    rewrite result_of_trace. apply first_max_trace, result_of_first_max.
  - intros self product_data cp category min_price max_price r q Hle Hr Hwin Hq Heq.
    apply optimize_price_returns in Hr as (bd & _ & _ & _ & ->).
    set (lo := lower_bound cp min_price) in *.
    set (hi := upper_bound cp max_price) in *.
    set (e := get_elasticity self category) in *.
    pose proof (first_max_trace _ _ _ _ _ _ _ _ (result_of_first_max e cp bd lo hi))
      as Hbest.
    rewrite <- result_of_trace in Hbest.
    destruct Hbest as [(_ & Hr & _) | (l1 & pt & l2 & Htr & -> & Hr & _ & H1 & H2)].
    { cbn [current_revenue result_of] in Hwin. rewrite Hr in Hwin.
      by apply Qlt_irrefl in Hwin. }
    rewrite Hr in Heq. rewrite Htr in Hq.
    apply in_app_or in Hq as [Hq | [<- | Hq]].
    + rewrite List.Forall_forall in H1. apply H1 in Hq. rewrite Heq in Hq.
      by apply Qlt_irrefl in Hq.
    + apply Qle_refl.
    + apply list_elem_of_In, list_elem_of_lookup in Hq as [k Hk].
      apply (result_of_ascending e cp bd lo hi (length l1) (length l1 + S k));
        [done | lia | rewrite Htr..].
      * by apply list_lookup_middle.
      * rewrite lookup_app_r by lia.
        replace (length l1 + S k - length l1)%nat with (S k) by lia. done.
  - exists (returned (fst symmetric_call)).
    eexists. eexists.
    split; [vm_compute; reflexivity|].
    split; [vm_compute; reflexivity|].
    split; [vm_compute; reflexivity|].
    split; [vm_compute; reflexivity|].
    split; [vm_compute; reflexivity|].
    repeat split; vm_compute; reflexivity.
Qed.

(** ** optimize_price: the trace *)

(** C5: with valid bounds the returned trace has exactly 50 points; point
    [i] has price min_price + i × (max_price − min_price) / 49, so prices
    are linearly spaced and ascending (strictly when min_price <
    max_price), the first is min_price and the 50th is max_price. *)
Theorem trace_is_the_fifty_point_grid
    self product_data cp category min_price max_price r :
  0 < lower_bound cp min_price ->
  lower_bound cp min_price <= upper_bound cp max_price ->
  fst (optimize_price self product_data cp category min_price max_price)
    = Returns r ->
  length (simulation_results r) = 50%nat /\
  (forall i, (i < 50)%nat ->
     exists pt,
       simulation_results r !! i = Some pt /\
       price pt == lower_bound cp min_price
                   + inject_Z (Z.of_nat i)
                     * ((upper_bound cp max_price - lower_bound cp min_price) / 49)) /\
  (forall i j pi pj, (i < j)%nat ->
     simulation_results r !! i = Some pi ->
     simulation_results r !! j = Some pj ->
     price pi <= price pj /\
     (lower_bound cp min_price < upper_bound cp max_price -> price pi < price pj)) /\
  (exists p_first p_last,
     simulation_results r !! 0%nat = Some p_first /\
     simulation_results r !! 49%nat = Some p_last /\
     price p_first == lower_bound cp min_price /\
     price p_last = upper_bound cp max_price).
Proof.
  intros _ Hle Hr.
  apply optimize_price_returns in Hr as (bd & _ & _ & _ & ->).
  set (lo := lower_bound cp min_price) in *.
  set (hi := upper_bound cp max_price) in *.
  set (e := get_elasticity self category).
  rewrite result_of_trace.
  assert (forall i q, linspace lo hi 50 !! i = Some q ->
            map (sim_point e cp bd) (linspace lo hi 50) !! i
            = Some (sim_point e cp bd q)) as Hpt.
  { intros i q Hq. by rewrite lookup_map, Hq. }
  assert (forall i pt,
            map (sim_point e cp bd) (linspace lo hi 50) !! i = Some pt ->
            linspace lo hi 50 !! i = Some (price pt)) as Hinv.
  { intros i pt Hi. rewrite lookup_map in Hi.
    destruct (linspace lo hi 50 !! i) as [q|]; [|done].
    by injection Hi as <-. }
  split; [by rewrite length_map, linspace_length|].
  split; [|split].
  - intros i Hi. destruct (linspace_lookup lo hi 48 i Hi) as (q & Hq & Eq).
    exists (sim_point e cp bd q). split; [by apply Hpt|]. exact Eq.
  - intros i j pi pj Hij Hi Hj.
    by apply (linspace_ascending lo hi 48 i j); [| |apply Hinv..].
  - destruct (linspace_lookup lo hi 48 0) as (q & Hq & Eq); [lia|].
    exists (sim_point e cp bd q), (sim_point e cp bd hi).
    split; [by apply Hpt|]. split; [apply Hpt, (linspace_last lo hi 48)|].
    split; [|done]. cbn [price sim_point]. rewrite Eq.
    change (inject_Z (Z.of_nat 0)) with 0. ring.
Qed.

(** ** optimize_price: zero elasticity *)

Lemma sim_point_zero_elasticity e cp bd p :
  e == 0 -> ~ cp == 0 ->
  demand (sim_point e cp bd p) == bd /\
  revenue (sim_point e cp bd p) == p * bd.
Proof.
  intros He Hcp. cbn [sim_point demand revenue].
  split; rewrite He; field; done.
Qed.

Lemma linspace_In_last (a b : Q) (d : nat) : In b (linspace a b (S (S d))).
Proof.
  apply list_elem_of_In, list_elem_of_lookup. exists (S d).
  apply linspace_last.
Qed.

(** C6, as the code has it: with elasticity 0 and a positive base demand,
    every candidate's demand equals base_demand and revenue = price ×
    base_demand grows strictly with the candidate price; the returned
    optimal_price is max_price when min_price <= max_price and
    current_price <= max_price, and stays current_price when the whole
    window lies below current_price. *)
Theorem zero_elasticity_optimum
    self product_data cp category min_price max_price bd r :
  get_elasticity self category == 0 ->
  forecast_demand self (<["Price" := VNum cp]> product_data) = Returns bd ->
  0 < bd ->
  fst (optimize_price self product_data cp category min_price max_price)
    = Returns r ->
  Forall (fun pt => demand pt == bd /\ revenue pt == price pt * bd)
         (simulation_results r) /\
  (forall pi pj, In pi (simulation_results r) -> In pj (simulation_results r) ->
     price pi < price pj -> revenue pi < revenue pj) /\
  (lower_bound cp min_price <= upper_bound cp max_price ->
   cp <= upper_bound cp max_price ->
   optimal_price r == upper_bound cp max_price) /\
  (lower_bound cp min_price <= upper_bound cp max_price ->
   upper_bound cp max_price < cp ->
   optimal_price r = cp).
Proof.
  intros He Hbd Hpos Hr.
  apply optimize_price_returns in Hr as (bd' & Hbd' & Hcp & _ & ->).
  rewrite Hbd in Hbd'. injection Hbd' as <-.
  set (lo := lower_bound cp min_price) in *.
  set (hi := upper_bound cp max_price) in *.
  set (e := get_elasticity self category) in *.
  assert (forall pt, In pt (simulation_results (result_of e cp bd lo hi)) ->
            demand pt == bd /\ revenue pt == price pt * bd) as Hpts.
  { intros pt Hin. rewrite result_of_trace in Hin.
    apply in_map_iff in Hin as (p & <- & _).
    by apply sim_point_zero_elasticity. }
  split; [by apply List.Forall_forall|].
  split.
  { intros pi pj Hi Hj Hlt.
    destruct (Hpts pi Hi) as [_ ->]. destruct (Hpts pj Hj) as [_ ->].
    by apply Qmult_lt_compat_r. }
  destruct (first_max_cases _ _ _ _ _ _ _ _ (result_of_first_max e cp bd lo hi))
    as [Hcase Hall].
  assert (revenue (sim_point e cp bd hi)
          <= optimal_revenue (result_of e cp bd lo hi)) as Hhi.
  { rewrite List.Forall_forall in Hall. apply Hall, (linspace_In_last lo hi 48). }
  destruct (sim_point_zero_elasticity e cp bd hi He Hcp) as [_ Ehi].
  rewrite Ehi in Hhi.
  destruct Hcase as [[-> Hrev] | (Hin & Hrev & Hlt)].
  - rewrite Hrev in Hhi. split.
    + intros _ Hle. apply Qle_antisym; [done|]. nra.
    + done.
  - set (p := optimal_price (result_of e cp bd lo hi)) in *.
    destruct (sim_point_zero_elasticity e cp bd p He Hcp) as [_ Ep].
    rewrite Hrev, Ep in Hhi. rewrite Hrev, Ep in Hlt.
    split.
    + intros Hle _. destruct (linspace_bounds lo hi 48 p Hle Hin) as [_ Hp].
      apply Qle_antisym; [done|]. nra.
    + intros Hle Hbelow.
      destruct (linspace_bounds lo hi 48 p Hle Hin) as [_ Hp]. nra.
Qed.

(** ** optimize_price: a zero baseline *)



(** ** optimize_price: the sign of demand and revenue *)

(** C2, at the failing input: with the table of the source, category
    Snacks (elasticity -1.4), current price 10, a forecast of 1000 and the
    window 10..20, the call returns and the last point of the trace, at
    price 20, has demand -400 and revenue -8000. *)
Theorem wide_window_has_negative_demand :
  exists r pt,
    fst wide_window_call = Returns r /\
    simulation_results r !! 49%nat = Some pt /\
    price pt == 20 /\
    demand pt == -400 /\
    revenue pt == -8000 /\
    revenue pt == price pt * demand pt /\
    demand pt < 0 /\ revenue pt < 0.
Proof.
  exists (returned (fst wide_window_call)). eexists.
  split; [vm_compute; reflexivity|].
  split; [vm_compute; reflexivity|].
  repeat split; vm_compute; reflexivity.
Qed.

(** X9: within the default window the factor 1 + elasticity × change stays
    non-negative for every elasticity between -10/3 and 10/3 (all those of
    the table of the source), so for a positive current price no demand
    and no revenue of the trace is negative. *)
Lemma default_window_nonnegative self product_data cp category r :
  0 < cp ->
  -(10 # 3) <= get_elasticity self category <= 10 # 3 ->
  fst (optimize_price self product_data cp category None None) = Returns r ->
  Forall (fun pt => 0 <= demand pt /\ 0 <= revenue pt) (simulation_results r).
Proof.
  intros Hcp [He1 He2] Hr.
  apply optimize_price_returns in Hr as (bd & Hbd & _ & _ & ->).
  apply forecast_demand_nonneg in Hbd.
  rewrite result_of_trace. apply List.Forall_forall. intros pt Hin.
  apply in_map_iff in Hin as (p & <- & Hp).
  apply (linspace_bounds _ _ 48) in Hp as [Hlo Hhi];
    [|cbn [lower_bound upper_bound default]; lra].
  cbn [lower_bound upper_bound default] in Hlo, Hhi.
  cbn [sim_point demand revenue].
  set (e := get_elasticity self category) in *.
  assert ((p - cp) / cp == p / cp - 1) as -> by (field; lra).
  assert (7 # 10 <= p / cp) by (apply Qle_shift_div_l; lra).
  assert (p / cp <= 13 # 10) by (apply Qle_shift_div_r; lra).
  set (x := p / cp) in *.
  assert (0 <= 1 + e * (x - 1)) as Hfactor by nra.
  assert (0 <= bd * (1 + e * (x - 1))) as Hdemand by nra.
  split; [done|]. nra.
Qed.

(** ** generate_recommendations *)

(** A failure inside the [try] block of a product that has a category is
    caught: a diagnostic is logged and the loop goes on with the rest. *)
Lemma recommend_loop_skips self product rest recs log category e :
  product !! "Product_Category" = Some category ->
  try_product self product = Raises e ->
  recommend_loop self (product :: rest) recs log
  = recommend_loop self rest recs (log ++ [(category, e)]).
Proof.
  intros Hcat Htry. cbn [recommend_loop]. by rewrite Htry, Hcat.
Qed.

(** An exception raised by optimize_price itself is always of that kind:
    the call was made, so the category was there. *)
Lemma optimize_failure_is_skipped self product rest recs log cp category e :
  product !! "Price" = Some (VNum cp) ->
  product !! "Product_Category" = Some category ->
  fst (optimize_price self product cp category None None) = Raises e ->
  recommend_loop self (product :: rest) recs log
  = recommend_loop self rest recs (log ++ [(category, e)]).
Proof.
  intros Hprice Hcat Hopt. apply recommend_loop_skips; [done|].
  unfold try_product. rewrite Hprice, Hcat.
  destruct (optimize_price _ _ _ _ _ _) as [call pd]. cbn [fst] in Hopt.
  by rewrite Hopt.
Qed.

(** A batch in which every product carries a category never raises:
    whatever fails inside a [try] block is logged and skipped. *)
Lemma labelled_batch_never_raises self products recs log e :
  Forall (fun product => is_Some (product !! "Product_Category")) products ->
  fst (recommend_loop self products recs log) <> Raises e.
Proof.
  intros Hall. revert recs log.
  induction Hall as [|product rest [category Hcat] _ IH]; intros recs log.
  - done.
  - cbn [recommend_loop]. destruct (try_product self product).
    + apply IH.
    + rewrite Hcat. apply IH.
    + specialize (IH recs log).
      by destruct (recommend_loop self rest recs log) as [[? | ? |] ?].
Qed.

(** The batch of the specification: five products, the estimator raises
    on the third; four records are returned, the third product is absent
    and one diagnostic names it. *)
Lemma batch_of_five_skips_third :
  exists recs,
    generate_recommendations picky_estimator batch_of_five
    = (Returns recs,
       [(VStr "Dairy", OtherError "ValueError" "feature shape mismatch")]) /\
    map Product_Category recs
    = [VStr "Snacks"; VStr "Beverages"; VStr "Household"; VStr "Personal Care"] /\
    length recs = 4%nat.
Proof.
  eexists. split; [vm_compute; reflexivity|].
  split; reflexivity.
Qed.

(** C7, at the failing input: the second product of the batch has no
    'Product_Category'.  The KeyError raised in its [try] block is caught,
    but the handler looks the same key up to print its diagnostic, so a
    second KeyError leaves generate_recommendations: no record is
    returned, not even that of the first product, and the third product
    is never processed. *)
Theorem unlabelled_product_aborts_batch :
  try_product (constant_estimator 100) (product_without_category "Urban" 20)
    = Raises (KeyError "Product_Category") /\
  generate_recommendations (constant_estimator 100) batch_with_unlabelled
    = (Raises (KeyError "Product_Category"), []) /\
  (exists recs,
     generate_recommendations (constant_estimator 100)
       [mk_product "Snacks" "Urban" 10; mk_product "Dairy" "Rural" 30]
     = (Returns recs, []) /\ length recs = 2%nat).
Proof.
  split; [vm_compute; reflexivity|].
  split; [vm_compute; reflexivity|].
  eexists. split; [vm_compute; reflexivity|reflexivity].
Qed.

(** C6, counterexample: elasticity 0, base demand 100 > 0, current price
    10 and the window 5..8: every candidate earns less than the baseline,
    so optimal_price stays 10 and is not max_price = 8. *)
Lemma low_window_keeps_current_price :
  get_elasticity inelastic_optimizer (VStr "Staples") == 0 /\
  forecast_demand inelastic_optimizer
    (<["Price" := VNum 10]> (mk_product "Staples" "Urban" 10)) = Returns 100 /\
  0 < 100 /\
  exists r,
    fst low_window_call = Returns r /\
    optimal_price r = 10 /\
    ~ optimal_price r == 8.
Proof.
  split; [vm_compute; reflexivity|].
  split; [vm_compute; reflexivity|].
  split; [reflexivity|].
  exists (returned (fst low_window_call)).
  split; [vm_compute; reflexivity|].
  split; [vm_compute; reflexivity|].
  vm_compute. discriminate.
Qed.

(** * Instances at concrete inputs *)

Lemma forecast_demand_clamps_at_minus_five :
  exists d,
    forecast_demand (constant_estimator (-5)) (mk_product "Snacks" "Urban" 10)
      = Returns d /\
    0 <= d /\ (-5 < 0 -> d = 0) /\ (0 <= -5 -> d == -5).
Proof.
  apply (forecast_demand_clamps (constant_estimator (-5))
           (mk_product "Snacks" "Urban" 10) (-5)).
  reflexivity.
Defined.


Lemma default_window_call_beats_base :
  current_revenue (returned (fst default_window_call))
  <= optimal_revenue (returned (fst default_window_call)).
Proof.
  apply (optimal_revenue_at_least_base (constant_estimator 1000)
           (mk_product "Snacks" "Urban" 10) 10 (VStr "Snacks") None None
           (returned (fst default_window_call))).
  - reflexivity.
  - vm_compute; discriminate.
  - vm_compute; reflexivity.
Defined.

Lemma default_window_call_earliest_best :
  earliest_best 10
    (current_revenue (returned (fst default_window_call)))
    (simulation_results (returned (fst default_window_call)))
    (optimal_price (returned (fst default_window_call)))
    (optimal_revenue (returned (fst default_window_call))).
Proof.
  apply (proj1 strict_improvement_tie_break (constant_estimator 1000)
           (mk_product "Snacks" "Urban" 10) 10 (VStr "Snacks") None None
           (returned (fst default_window_call))).
  vm_compute; reflexivity.
Defined.

Lemma default_window_call_has_fifty_points :
  length (simulation_results (returned (fst default_window_call))) = 50%nat.
Proof.
  apply (trace_is_the_fifty_point_grid (constant_estimator 1000)
           (mk_product "Snacks" "Urban" 10) 10 (VStr "Snacks") None None
           (returned (fst default_window_call))).
  - reflexivity.
  - vm_compute; discriminate.
  - vm_compute; reflexivity.
Defined.

Lemma inelastic_default_call_picks_max_price :
  optimal_price (returned (fst inelastic_default_call)) == 13.
Proof.
  assert (upper_bound 10 None == 13) as <- by reflexivity.
  apply (zero_elasticity_optimum inelastic_optimizer
           (mk_product "Staples" "Urban" 10) 10 (VStr "Staples") None None 100
           (returned (fst inelastic_default_call))).
  - vm_compute; reflexivity.
  - vm_compute; reflexivity.
  - reflexivity.
  - vm_compute; reflexivity.
  - vm_compute; discriminate.
  - vm_compute; discriminate.
Defined.

Lemma frozen_category_uses_minus_one :
  get_elasticity (constant_estimator 1000) (VStr "Frozen") = -1.
Proof.
  apply (unknown_category_uses_default_elasticity (constant_estimator 1000)
           (mk_product "Frozen" "Urban" 10) 10 "Frozen" (Some 9) (Some 11)).
  vm_compute; reflexivity.
Defined.

Lemma symmetric_call_sets_price :
  snd symmetric_call !! "Price" = Some (VNum 10).
Proof.
  exact (proj1 (proj2 (optimize_price_mutates_product_data
           (constant_estimator 1000) (mk_product "Frozen" "Urban" 10) 10
           (VStr "Frozen") (Some 9) (Some 11)))).
Defined.

(** * Further properties of the optimizer *)

(** ** prepare_features *)

Lemma prepare_features_ext self (pd1 pd2 : gmap string value) :
  (forall f, In f (features self) -> pd1 !! f = pd2 !! f) ->
  prepare_features self pd1 = prepare_features self pd2.
Proof.
  intros H. unfold prepare_features. apply map_ext_in.
  intros f Hf. by rewrite H.
Qed.

(** X1: an entry whose key is not one of the features never reaches the
    estimator: setting it changes neither the feature vector nor the
    forecast. *)
Theorem forecast_ignores_other_keys self product_data (key : string) v :
  ~ In key (features self) ->
  prepare_features self (<[key := v]> product_data)
    = prepare_features self product_data /\
  forecast_demand self (<[key := v]> product_data)
    = forecast_demand self product_data.
Proof.
  intros Hkey.
  assert (prepare_features self (<[key := v]> product_data)
          = prepare_features self product_data) as E.
  { apply prepare_features_ext. intros f Hf.
    apply lookup_insert_ne. by intros ->. }
  split; [done|]. unfold forecast_demand. by rewrite E.
Qed.

(** X2: a feature missing from the dictionary is indistinguishable from a
    feature present with the value 0.0. *)
Theorem missing_feature_is_zero self product_data (feature : string) :
  product_data !! feature = None ->
  prepare_features self (<[feature := VNum 0]> product_data)
    = prepare_features self product_data /\
  forecast_demand self (<[feature := VNum 0]> product_data)
    = forecast_demand self product_data.
Proof.
  intros Hnone.
  assert (prepare_features self (<[feature := VNum 0]> product_data)
          = prepare_features self product_data) as E.
  { unfold prepare_features. apply map_ext. intros f.
    destruct (decide (feature = f)) as [<- | Hne].
    - by rewrite lookup_insert_eq, Hnone.
    - by rewrite lookup_insert_ne. }
  split; [done|]. unfold forecast_demand. by rewrite E.
Qed.

(** ** optimize_price and the stored price *)

(** X3: the 'Price' entry the caller stored is overwritten before it is read:
    the call on a dictionary with any other stored price is the same call,
    and calling again on the dictionary the first call left behind gives
    the same outcome and the same dictionary. *)
Theorem optimize_price_ignores_stored_price
    self product_data cp category min_price max_price :
  (forall v,
     optimize_price self (<["Price" := v]> product_data) cp category
       min_price max_price
     = optimize_price self product_data cp category min_price max_price) /\
  optimize_price self
    (snd (optimize_price self product_data cp category min_price max_price))
    cp category min_price max_price
  = optimize_price self product_data cp category min_price max_price.
Proof.
  assert (forall v,
     optimize_price self (<["Price" := v]> product_data) cp category
       min_price max_price
     = optimize_price self product_data cp category min_price max_price) as H.
  { intros v. apply injective_projections.
    - by rewrite !optimize_price_outcome, insert_insert_eq.
    - by rewrite !optimize_price_data, insert_insert_eq. }
  split; [done|]. rewrite optimize_price_data. apply H.
Qed.

(** ** optimize_price: what it can raise *)




(** ** optimize_price: where the optimum lies *)

(** The returned pair is the initial pair or a candidate of the grid that
    earns strictly more than the baseline. *)
Lemma result_of_optimum e cp bd lo hi :
  (optimal_price (result_of e cp bd lo hi) = cp /\
   optimal_revenue (result_of e cp bd lo hi) = cp * bd)
  \/
  (In (optimal_price (result_of e cp bd lo hi)) (linspace lo hi 50) /\
   optimal_revenue (result_of e cp bd lo hi)
     = revenue (sim_point e cp bd (optimal_price (result_of e cp bd lo hi))) /\
   cp * bd < optimal_revenue (result_of e cp bd lo hi)).
Proof.
  destruct (first_max_cases _ _ _ _ _ _ _ _ (result_of_first_max e cp bd lo hi))
    as [Hcase _].
  exact Hcase.
Qed.

(** A call that returns had a positive forecast, unless the current price
    is negative. *)
Lemma returns_positive_demand
    self product_data cp category min_price max_price r :
  fst (optimize_price self product_data cp category min_price max_price)
    = Returns r ->
  exists bd,
    forecast_demand self (<["Price" := VNum cp]> product_data) = Returns bd /\
    0 < bd /\ ~ cp == 0 /\
    r = result_of (get_elasticity self category) cp bd
          (lower_bound cp min_price) (upper_bound cp max_price).
Proof.
  intros Hr. apply optimize_price_returns in Hr as (bd & Hbd & Hcp & Hrev & ->).
  exists bd. split; [done|]. split; [|done].
  apply forecast_demand_nonneg in Hbd.
  destruct (Qlt_le_dec 0 bd) as [|Hle]; [done|].
  destruct Hrev. assert (bd == 0) as -> by lra. ring.
Qed.

Lemma result_of_price_change e cp bd lo hi :
  result_price_change_pct (result_of e cp bd lo hi)
  = (optimal_price (result_of e cp bd lo hi) - cp) / cp * 100.
Proof.
  unfold result_of. cbn [result_price_change_pct optimal_price]. reflexivity.
Qed.

Lemma result_of_revenue_increase e cp bd lo hi :
  revenue_increase_pct (result_of e cp bd lo hi)
  = (optimal_revenue (result_of e cp bd lo hi) - cp * bd) / (cp * bd) * 100.
Proof.
  unfold result_of. cbn [revenue_increase_pct optimal_revenue]. reflexivity.
Qed.

Lemma result_of_current_revenue e cp bd lo hi :
  current_revenue (result_of e cp bd lo hi) = cp * bd.
Proof. unfold result_of. cbn [current_revenue]. reflexivity. Qed.

Lemma result_of_optimal_revenue_ge e cp bd lo hi :
  cp * bd <= optimal_revenue (result_of e cp bd lo hi).
Proof.
  unfold result_of, scan. cbn [optimal_revenue].
  apply (scan_best_ge e cp bd _
           {| fin_best_price := cp; fin_best_revenue := cp * bd; fin_results := [] |}).
Qed.

Lemma optimal_price_hull
    self product_data cp category min_price max_price r :
  fst (optimize_price self product_data cp category min_price max_price)
    = Returns r ->
  (optimal_price r = cp \/
   In (optimal_price r) (map price (simulation_results r))) /\
  (lower_bound cp min_price <= upper_bound cp max_price ->
   optimal_price r = cp \/
   lower_bound cp min_price <= optimal_price r <= upper_bound cp max_price) /\
  (lower_bound cp min_price <= cp <= upper_bound cp max_price ->
   lower_bound cp min_price <= optimal_price r <= upper_bound cp max_price).
Proof.
  intros Hr. apply optimize_price_returns in Hr as (bd & _ & Hcp & _ & ->).
  set (lo := lower_bound cp min_price). set (hi := upper_bound cp max_price).
  set (e := get_elasticity self category).
  rewrite result_of_prices.
  destruct (result_of_optimum e cp bd lo hi) as [[Hp _] | [Hin _]].
  - rewrite Hp. split; [by left|]. split; [by left|]. done.
  - split; [by right|].
    split; intros Hle.
    + right. by apply (linspace_bounds lo hi 48).
    + apply (linspace_bounds lo hi 48); [|done]. lra.
Qed.

(** X5: the returned optimal_price is current_price or the price of a point
    of the trace; when the window is well formed it is current_price or
    lies within the window, and it lies within the window when
    current_price does. *)
Theorem optimal_price_within_window
    self product_data cp category min_price max_price r :
  fst (optimize_price self product_data cp category min_price max_price)
    = Returns r ->
  (optimal_price r = cp \/
   In (optimal_price r) (map price (simulation_results r))) /\
  (lower_bound cp min_price <= upper_bound cp max_price ->
   optimal_price r = cp \/
   lower_bound cp min_price <= optimal_price r <= upper_bound cp max_price) /\
  (lower_bound cp min_price <= cp <= upper_bound cp max_price ->
   lower_bound cp min_price <= optimal_price r <= upper_bound cp max_price).
Proof. apply optimal_price_hull. Qed.

Lemma revenue_increase_sign
    self product_data cp category min_price max_price r :
  0 < cp ->
  fst (optimize_price self product_data cp category min_price max_price)
    = Returns r ->
  0 <= revenue_increase_pct r /\
  (optimal_revenue r == current_revenue r -> revenue_increase_pct r == 0).
Proof.
  intros Hpos Hr.
  apply returns_positive_demand in Hr as (bd & _ & Hbd & Hcp & ->).
  set (lo := lower_bound cp min_price). set (hi := upper_bound cp max_price).
  set (e := get_elasticity self category).
  pose proof (result_of_optimal_revenue_ge e cp bd lo hi) as Hge.
  rewrite result_of_revenue_increase, result_of_current_revenue.
  revert Hge. generalize (optimal_revenue (result_of e cp bd lo hi)).
  intros br Hge.
  assert (0 < cp * bd) as Hbase by nra.
  split.
  - assert (0 <= (br - cp * bd) / (cp * bd))
      by (apply Qle_shift_div_l; [done|lra]).
    lra.
  - intros E. assert (br - cp * bd == 0) as E' by lra.
    assert ((br - cp * bd) / (cp * bd) == 0) as E''.
    { rewrite E'. field. lra. }
    lra.
Qed.

(** X6: for a positive current price the reported revenue_increase_pct is
    never negative, and it is zero when the price is kept. *)
Theorem revenue_increase_is_nonnegative
    self product_data cp category min_price max_price r :
  0 < cp ->
  fst (optimize_price self product_data cp category min_price max_price)
    = Returns r ->
  0 <= revenue_increase_pct r /\
  (optimal_revenue r == current_revenue r -> revenue_increase_pct r == 0).
Proof. apply revenue_increase_sign. Qed.

(** ** generate_recommendations: records and diagnostics *)

(** What a [try] block that returns has done. *)
Lemma try_product_returns self product rec :
  try_product self product = Returns rec ->
  exists cp r,
    product !! "Price" = Some (VNum cp) /\
    product !! "Product_Category" = Some (Product_Category rec) /\
    product !! "Store_Location" = Some (Store_Location rec) /\
    fst (optimize_price self product cp (Product_Category rec) None None)
      = Returns r /\
    Current_Price rec = cp /\
    Recommended_Price rec = optimal_price r /\
    Price_Change_Pct rec = result_price_change_pct r /\
    Expected_Revenue_Increase_Pct rec = revenue_increase_pct r /\
    Recommendation rec
      = (if Qltb 0 (Price_Change_Pct rec) then "INCREASE" else "DECREASE").
Proof.
  unfold try_product.
  destruct (product !! "Price") as [[cp | s] |] eqn:Hprice; [| |done].
  2: { by destruct (product !! "Product_Category"). }
  destruct (product !! "Product_Category") as [category|] eqn:Hcat; [|done].
  pose proof (optimize_price_data self product cp category None None) as Hsnd.
  pose proof (optimize_price_returns self product cp category None None) as Hret.
  destruct (optimize_price self product cp category None None)
    as [call pd] eqn:Hopt.
  cbn [fst snd] in Hsnd, Hret. subst pd.
  destruct call as [r | e |]; [|done..]. cbn [mbind outcome_bind].
  rewrite !lookup_insert_ne by done. rewrite Hcat.
  destruct (product !! "Store_Location") as [location|] eqn:Hloc; [|done].
  destruct (proj1 (Hret r) eq_refl) as (bd & _ & _ & _ & Er).
  assert (current_price r = cp) as Hcur.
  { rewrite Er. unfold result_of. cbn [current_price]. reflexivity. }
  clear Er Hret. intros [= <-].
  cbn [Product_Category Store_Location Current_Price Recommended_Price
       Price_Change_Pct Expected_Revenue_Increase_Pct Recommendation].
  exists cp, r. rewrite Hopt. by repeat split.
Qed.

(** A batch that returns has, in the order of the products, one record
    for each product whose [try] block returned and one diagnostic for
    each product whose [try] block raised. *)
Lemma recommend_loop_returns self products recs log out log' :
  recommend_loop self products recs log = (Returns out, log') ->
  out = recs ++ omap (record_of self) products /\
  log' = log ++ omap (diagnostic_of self) products /\
  (length (omap (record_of self) products)
   + length (omap (diagnostic_of self) products) = length products)%nat.
Proof.
  revert recs log.
  induction products as [|product rest IH]; intros recs log.
  - cbn. intros [= <- <-]. by rewrite !app_nil_r.
  - cbn [recommend_loop].
    destruct (try_product self product) as [r | e |] eqn:Htry;
      [| |by destruct (recommend_loop self rest recs log) as [[? | ? |] ?]].
    + assert (record_of self product = Some r) as Hr
        by (unfold record_of; by rewrite Htry).
      assert (diagnostic_of self product = None) as Hd
        by (unfold diagnostic_of; by rewrite Htry).
      intros H. apply IH in H as (-> & -> & Hlen).
      cbn [omap list_omap]. rewrite Hr, Hd. rewrite <- app_assoc.
      split; [done|]. split; [done|]. cbn [length]. lia.
    + destruct (product !! "Product_Category") as [category|] eqn:Hcat; [|done].
      assert (record_of self product = None) as Hr
        by (unfold record_of; by rewrite Htry).
      assert (diagnostic_of self product = Some (category, e)) as Hd
        by (unfold diagnostic_of; by rewrite Htry, Hcat).
      intros H. apply IH in H as (-> & -> & Hlen).
      cbn [omap list_omap]. rewrite Hr, Hd. rewrite <- app_assoc.
      split; [done|]. split; [done|]. cbn [length]. lia.
Qed.

Lemma recommend_loop_raises self products recs log e :
  fst (recommend_loop self products recs log) = Raises e ->
  e = KeyError "Product_Category" /\
  Exists (fun product => product !! "Product_Category" = None) products.
Proof.
  revert recs log.
  induction products as [|product rest IH]; intros recs log; [done|].
  cbn [recommend_loop].
  destruct (try_product self product) as [r | e' |].
  - intros H. apply IH in H as [-> Hex]. split; [done|]. by right.
  - destruct (product !! "Product_Category") as [category|] eqn:Hcat.
    + intros H. apply IH in H as [-> Hex]. split; [done|]. by right.
    + cbn. intros [= <-]. split; [done|]. by left.
  - specialize (IH recs log).
    destruct (recommend_loop self rest recs log) as [[? | e' |] ?];
      [done| |done].
    intros H. apply IH in H as [-> Hex]. split; [done|]. by right.
Qed.

(** A [try] block leaves the finite numbers only if the estimator does:
    the window is the default one. *)
Lemma try_product_non_finite self product :
  try_product self product = NonFinite ->
  exists fv, model_predict self fv = NonFinite.
Proof.
  unfold try_product.
  destruct (product !! "Price") as [[cp | s] |]; [| |done].
  2: { by destruct (product !! "Product_Category"). }
  destruct (product !! "Product_Category") as [category|]; [|done].
  pose proof (default_window_non_finite self product cp category) as Hnf.
  pose proof (optimize_price_data self product cp category None None) as Hsnd.
  destruct (optimize_price self product cp category None None) as [call pd].
  cbn [fst snd] in Hnf, Hsnd. subst pd.
  destruct call as [r | e |]; cbn [mbind outcome_bind].
  - destruct (_ !! "Product_Category"); [|done].
    by destruct (_ !! "Store_Location").
  - done.
  - intros _. specialize (Hnf eq_refl). unfold forecast_demand in Hnf.
    destruct (model_predict self _) as [raw | e |] eqn:Hraw; [done..|].
    by eexists.
Qed.

(** With an estimator that stays within the finite numbers, a batch in
    which every product has a category returns. *)
Lemma recommend_loop_total self products recs log :
  (forall fv, model_predict self fv <> NonFinite) ->
  Forall (fun product => is_Some (product !! "Product_Category")) products ->
  exists recs' log', recommend_loop self products recs log = (Returns recs', log').
Proof.
  intros Hfin Hall. revert recs log.
  induction Hall as [|product rest [category Hcat] _ IH]; intros recs log.
  - by exists recs, log.
  - cbn [recommend_loop].
    destruct (try_product self product) as [r | e |] eqn:Htry.
    + apply IH.
    + rewrite Hcat. apply IH.
    + apply try_product_non_finite in Htry as [fv Hfv]. by apply Hfin in Hfv.
Qed.

Lemma batch_records_sound self products recs log :
  generate_recommendations self products = (Returns recs, log) ->
  Forall (fun rec => exists product,
            In product products /\ try_product self product = Returns rec)
         recs.
Proof.
  intros H. apply recommend_loop_returns in H as (-> & _ & _).
  cbn [app]. apply List.Forall_forall. intros rec Hin.
  apply list_elem_of_In, list_elem_of_omap in Hin as (product & Hin & Hrec).
  exists product. split; [by apply list_elem_of_In|].
  unfold record_of in Hrec.
  destruct (try_product self product); [|done..]. by injection Hrec as ->.
Qed.

(** X10: when generate_recommendations returns, every product of the batch is
    accounted for once: the records are those of the products whose [try]
    block returned, the diagnostics those of the products whose [try]
    block raised, both in the order of the batch, and together they are as
    many as the products. *)
Theorem batch_accounts_for_every_product self products recs log :
  generate_recommendations self products = (Returns recs, log) ->
  recs = omap (record_of self) products /\
  log = omap (diagnostic_of self) products /\
  (length recs + length log = length products)%nat.
Proof.
  intros H. apply recommend_loop_returns in H as (-> & -> & Hlen).
  by cbn [app].
Qed.

(** X11: generate_recommendations raises nothing but KeyError
    'Product_Category', and only on a batch that holds a product without
    that key; a batch in which every product has the key never raises,
    and it returns its data frame whatever else fails, provided the
    estimator's predictions are finite. *)
Theorem batch_raises_only_missing_category self products :
  (forall e,
     fst (generate_recommendations self products) = Raises e ->
     e = KeyError "Product_Category" /\
     Exists (fun product => product !! "Product_Category" = None) products) /\
  (Forall (fun product => is_Some (product !! "Product_Category")) products ->
   (forall e, fst (generate_recommendations self products) <> Raises e) /\
   ((forall fv, model_predict self fv <> NonFinite) ->
    exists recs log,
      generate_recommendations self products = (Returns recs, log))).
Proof.
  split; [|split].
  - intros e. apply recommend_loop_raises.
  - intros e. by apply labelled_batch_never_raises.
  - intros Hfin. by apply recommend_loop_total.
Qed.

(** A record returned by a batch, read against the product it was made
    from. *)
Lemma batch_record_facts self products recs log :
  generate_recommendations self products = (Returns recs, log) ->
  Forall (fun rec =>
            (exists product,
               In product products /\
               product !! "Price" = Some (VNum (Current_Price rec)) /\
               product !! "Product_Category" = Some (Product_Category rec) /\
               product !! "Store_Location" = Some (Store_Location rec)) /\
            Recommendation rec
              = (if Qltb 0 (Price_Change_Pct rec)
                 then "INCREASE" else "DECREASE") /\
            Price_Change_Pct rec
              = (Recommended_Price rec - Current_Price rec)
                / Current_Price rec * 100 /\
            (0 < Current_Price rec ->
             lower_bound (Current_Price rec) None <= Recommended_Price rec
               <= upper_bound (Current_Price rec) None /\
             0 <= Expected_Revenue_Increase_Pct rec))
         recs.
Proof.
  intros H. apply batch_records_sound in H.
  eapply Forall_impl; [exact H|]. clear H.
  intros rec (product & Hin & Htry).
  apply try_product_returns in Htry
    as (cp & r & Hprice & Hcat & Hloc & Hr & Hcur & Hrec & Hpct & Hinc & Hlabel).
  rewrite Hcur. split; [by exists product|]. split; [done|].
  rewrite Hrec, Hpct, Hinc.
  pose proof Hr as Hr'.
  apply optimize_price_returns in Hr' as (bd & _ & _ & _ & Er).
  split; [rewrite Er; apply result_of_price_change|].
  intros Hpos.
  destruct (optimal_price_hull _ _ _ _ _ _ _ Hr) as (_ & _ & Hwin).
  destruct (revenue_increase_sign _ _ _ _ _ _ _ Hpos Hr) as [Hnn _].
  split; [|done]. apply Hwin.
  cbn [lower_bound upper_bound default from_option id]. lra.
Qed.

(** X12: every record of a returned batch carries the category, the location
    and, as Current_Price, the price of a product of the batch, and its
    Price_Change_Pct is the relative difference of Recommended_Price and
    Current_Price in percent. *)
Theorem records_come_from_products self products recs log :
  generate_recommendations self products = (Returns recs, log) ->
  Forall (fun rec =>
            (exists product,
               In product products /\
               product !! "Price" = Some (VNum (Current_Price rec)) /\
               product !! "Product_Category" = Some (Product_Category rec) /\
               product !! "Store_Location" = Some (Store_Location rec)) /\
            Price_Change_Pct rec
              = (Recommended_Price rec - Current_Price rec)
                / Current_Price rec * 100)
         recs.
Proof.
  intros H. apply batch_record_facts in H.
  eapply Forall_impl; [exact H|]. intros rec (Hp & _ & Hpct & _). done.
Qed.

(** X13: every record of a returned batch whose Current_Price is positive
    recommends a price within the default window of that price, from
    current × 0.7 to current × 1.3, and reports a revenue increase that
    is not negative. *)
Theorem records_stay_within_default_window self products recs log :
  generate_recommendations self products = (Returns recs, log) ->
  Forall (fun rec =>
            0 < Current_Price rec ->
            lower_bound (Current_Price rec) None <= Recommended_Price rec
              <= upper_bound (Current_Price rec) None /\
            0 <= Expected_Revenue_Increase_Pct rec)
         recs.
Proof.
  intros H. apply batch_record_facts in H.
  eapply Forall_impl; [exact H|]. intros rec (_ & _ & _ & Hb). exact Hb.
Qed.

(** X14: the label of a record with a positive Current_Price is INCREASE
    exactly when Recommended_Price is above Current_Price; a record that
    keeps the price is labelled DECREASE. *)
Theorem record_label_follows_price self products recs log :
  generate_recommendations self products = (Returns recs, log) ->
  Forall (fun rec =>
            0 < Current_Price rec ->
            (Current_Price rec < Recommended_Price rec ->
             Recommendation rec = "INCREASE") /\
            (Recommended_Price rec <= Current_Price rec ->
             Recommendation rec = "DECREASE"))
         recs.
Proof.
  intros H. apply batch_record_facts in H.
  eapply Forall_impl; [exact H|]. intros rec (_ & -> & -> & _) Hpos.
  set (cp := Current_Price rec) in *. set (p := Recommended_Price rec).
  assert ((p - cp) / cp * 100 == (p - cp) * (100 / cp)) as E by (field; lra).
  assert (0 < 100 / cp) as Hk by (apply Qlt_shift_div_l; lra).
  split; intros Hcmp.
  - assert (Qltb 0 ((p - cp) / cp * 100) = true) as ->; [|done].
    apply Qltb_lt. rewrite E. apply Qmult_lt_0_compat; lra.
  - assert (Qltb 0 ((p - cp) / cp * 100) = false) as ->; [|done].
    apply Qltb_ge. rewrite E. nra.
Qed.



(** ** Instances of the further properties *)



Lemma labels_do_not_reach_the_estimator :
  forecast_demand (constant_estimator 1000)
    (<["Product_Category" := VStr "Dairy"]> (mk_product "Snacks" "Urban" 10))
  = forecast_demand (constant_estimator 1000) (mk_product "Snacks" "Urban" 10).
Proof.
  apply (forecast_ignores_other_keys (constant_estimator 1000)
           (mk_product "Snacks" "Urban" 10) "Product_Category" (VStr "Dairy")).
  cbn. intuition discriminate.
Defined.

Lemma absent_promotion_reads_as_zero :
  prepare_features picky_estimator
    (<["Promotion" := VNum 0]> (mk_product "Snacks" "Urban" 10))
  = prepare_features picky_estimator (mk_product "Snacks" "Urban" 10).
Proof.
  apply (missing_feature_is_zero picky_estimator
           (mk_product "Snacks" "Urban" 10) "Promotion").
  vm_compute; reflexivity.
Defined.

Lemma default_window_call_within_window :
  lower_bound 10 None <= optimal_price (returned (fst default_window_call))
    <= upper_bound 10 None.
Proof.
  apply (optimal_price_within_window (constant_estimator 1000)
           (mk_product "Snacks" "Urban" 10) 10 (VStr "Snacks") None None
           (returned (fst default_window_call)));
    [vm_compute; reflexivity | split; vm_compute; discriminate].
Defined.

Lemma default_window_call_gains :
  0 <= revenue_increase_pct (returned (fst default_window_call)).
Proof.
  apply (revenue_increase_is_nonnegative (constant_estimator 1000)
           (mk_product "Snacks" "Urban" 10) 10 (VStr "Snacks") None None
           (returned (fst default_window_call)));
    [reflexivity | vm_compute; reflexivity].
Defined.


Lemma batch_with_free_product_is_accounted_for :
  records_of_batch (constant_estimator 100) batch_with_free_product
    = omap (record_of (constant_estimator 100)) batch_with_free_product /\
  [(VStr "Dairy", ZeroDivisionError)]
    = omap (diagnostic_of (constant_estimator 100)) batch_with_free_product /\
  (length (records_of_batch (constant_estimator 100) batch_with_free_product)
   + length [(VStr "Dairy", ZeroDivisionError)]
   = length batch_with_free_product)%nat.
Proof.
  apply (batch_accounts_for_every_product (constant_estimator 100)
           batch_with_free_product
           (records_of_batch (constant_estimator 100) batch_with_free_product)
           [(VStr "Dairy", ZeroDivisionError)]).
  vm_compute; reflexivity.
Defined.

Lemma unlabelled_batch_raises_KeyError :
  KeyError "Product_Category" = KeyError "Product_Category" /\
  Exists (fun product => product !! "Product_Category" = None)
         batch_with_unlabelled.
Proof.
  apply (proj1 (batch_raises_only_missing_category (constant_estimator 100)
                  batch_with_unlabelled) (KeyError "Product_Category")).
  vm_compute; reflexivity.
Defined.

Lemma batch_of_five_records_come_from_products :
  Forall (fun rec =>
            (exists product,
               In product batch_of_five /\
               product !! "Price" = Some (VNum (Current_Price rec)) /\
               product !! "Product_Category" = Some (Product_Category rec) /\
               product !! "Store_Location" = Some (Store_Location rec)) /\
            Price_Change_Pct rec
              = (Recommended_Price rec - Current_Price rec)
                / Current_Price rec * 100)
         (records_of_batch picky_estimator batch_of_five).
Proof.
  apply (records_come_from_products picky_estimator batch_of_five
           (records_of_batch picky_estimator batch_of_five)
           (snd (generate_recommendations picky_estimator batch_of_five))).
  vm_compute; reflexivity.
Defined.

Lemma batch_of_five_stays_within_default_window :
  Forall (fun rec =>
            0 < Current_Price rec ->
            lower_bound (Current_Price rec) None <= Recommended_Price rec
              <= upper_bound (Current_Price rec) None /\
            0 <= Expected_Revenue_Increase_Pct rec)
         (records_of_batch picky_estimator batch_of_five).
Proof.
  apply (records_stay_within_default_window picky_estimator batch_of_five
           (records_of_batch picky_estimator batch_of_five)
           (snd (generate_recommendations picky_estimator batch_of_five))).
  vm_compute; reflexivity.
Defined.

Lemma batch_of_five_labels_follow_price :
  Forall (fun rec =>
            0 < Current_Price rec ->
            (Current_Price rec < Recommended_Price rec ->
             Recommendation rec = "INCREASE") /\
            (Recommended_Price rec <= Current_Price rec ->
             Recommendation rec = "DECREASE"))
         (records_of_batch picky_estimator batch_of_five).
Proof.
  apply (record_label_follows_price picky_estimator batch_of_five
           (records_of_batch picky_estimator batch_of_five)
           (snd (generate_recommendations picky_estimator batch_of_five))).
  vm_compute; reflexivity.
Defined.

Lemma default_window_call_is_nonnegative :
  Forall (fun pt => 0 <= demand pt /\ 0 <= revenue pt)
         (simulation_results (returned (fst default_window_call))).
Proof.
  apply (default_window_nonnegative (constant_estimator 1000)
           (mk_product "Snacks" "Urban" 10) 10 (VStr "Snacks")
           (returned (fst default_window_call)));
    [reflexivity | split; vm_compute; discriminate | vm_compute; reflexivity].
Defined.

(** * Properties of the mock API server *)

(** ** Rounding *)

Lemma round_half_even_close (x : Q) :
  x - (1 # 2) <= inject_Z (round_half_even x) <= x + (1 # 2).
Proof.
  unfold round_half_even.
  pose proof (Qfloor_le x) as Hlo. pose proof (Qlt_floor x) as Hhi.
  rewrite inject_Z_plus in Hhi. change (inject_Z 1) with 1 in Hhi.
  destruct (Qltb (x - inject_Z (Qfloor x)) (1 # 2)) eqn:E1.
  { apply Qltb_lt in E1. lra. }
  apply Qltb_ge in E1.
  assert (inject_Z (Qfloor x + 1) == inject_Z (Qfloor x) + 1) as Hplus
    by (by rewrite inject_Z_plus).
  destruct (Qltb (1 # 2) (x - inject_Z (Qfloor x))) eqn:E2.
  { apply Qltb_lt in E2. rewrite Hplus. lra. }
  apply Qltb_ge in E2.
  destruct (Z.even (Qfloor x)); [lra|]. rewrite Hplus. lra.
Qed.

Lemma round_half_even_comp (x y : Q) :
  x == y -> round_half_even x = round_half_even y.
Proof.
  intros E. unfold round_half_even. rewrite (Qfloor_comp x y E).
  assert (Qltb (x - inject_Z (Qfloor y)) (1 # 2)
          = Qltb (y - inject_Z (Qfloor y)) (1 # 2)) as ->.
  { destruct (Qltb (y - _) _) eqn:E1.
    - apply Qltb_lt. apply Qltb_lt in E1. lra.
    - apply Qltb_ge. apply Qltb_ge in E1. lra. }
  assert (Qltb (1 # 2) (x - inject_Z (Qfloor y))
          = Qltb (1 # 2) (y - inject_Z (Qfloor y))) as ->; [|done].
  destruct (Qltb _ (y - _)) eqn:E1.
  - apply Qltb_lt. apply Qltb_lt in E1. lra.
  - apply Qltb_ge. apply Qltb_ge in E1. lra.
Qed.

Lemma round_half_even_Z (z : Z) : round_half_even (inject_Z z) = z.
Proof.
  unfold round_half_even. rewrite Qfloor_Z.
  assert (Qltb (inject_Z z - inject_Z z) (1 # 2) = true) as ->; [|done].
  apply Qltb_lt. lra.
Qed.

Lemma round_half_even_mono (x y : Q) :
  x <= y -> (round_half_even x <= round_half_even y)%Z.
Proof.
  intros Hxy.
  destruct (Z_le_gt_dec (round_half_even x) (round_half_even y)) as [|Hgt];
    [done|exfalso].
  pose proof (round_half_even_close x) as [_ Hx].
  pose proof (round_half_even_close y) as [Hy _].
  assert (round_half_even y + 1 <= round_half_even x)%Z as Hz by lia.
  rewrite Zle_Qle, inject_Z_plus in Hz.
  change (inject_Z 1) with 1 in Hz.
  assert (x == y) as E by lra.
  apply round_half_even_comp in E. lia.
Qed.

Lemma py_round2_mono (x y : Q) : x <= y -> py_round2 x <= py_round2 y.
Proof.
  intros Hxy. unfold py_round2.
  assert (inject_Z (round_half_even (x * 100))
          <= inject_Z (round_half_even (y * 100))) as H.
  { rewrite <- Zle_Qle. apply round_half_even_mono. lra. }
  unfold Qdiv. change (/ 100) with (1 # 100). lra.
Qed.

Lemma py_round2_grid (z : Z) : py_round2 (inject_Z z / 100) == inject_Z z / 100.
Proof.
  unfold py_round2.
  rewrite (round_half_even_comp (inject_Z z / 100 * 100) (inject_Z z))
    by (field; lra).
  by rewrite round_half_even_Z.
Qed.

Lemma py_round2_zero : py_round2 0 == 0.
Proof. apply (py_round2_grid 0). Qed.

Lemma py_round2_close (x : Q) :
  x - (1 # 200) <= py_round2 x <= x + (1 # 200).
Proof.
  unfold py_round2. pose proof (round_half_even_close (x * 100)) as [H1 H2].
  unfold Qdiv. change (/ 100) with (1 # 100). lra.
Qed.

Lemma py_max_mono (x y : Q) : x <= y -> py_max 0 x <= py_max 0 y.
Proof.
  intros Hxy.
  destruct (py_max_spec 0 x) as [[? ->] | [? ->]];
    destruct (py_max_spec 0 y) as [[? ->] | [? ->]]; lra.
Qed.

Lemma py_min_spec (a b : Q) :
  (b < a /\ py_min a b = b) \/ (a <= b /\ py_min a b = a).
Proof.
  unfold py_min. destruct (Qltb b a) eqn:E.
  - left. split; [by apply Qltb_lt | done].
  - right. split; [by apply Qltb_ge | done].
Qed.

(** ** predict_demand *)

Lemma fl_returns (x y : Q) : fl x = Returns y -> y = x.
Proof. unfold fl. destruct (Qltb _ _); [|done]. by intros [= <-]. Qed.

Lemma int_to_float_returns (z : Z) (q : Q) :
  int_to_float z = Returns q -> q = inject_Z z.
Proof.
  unfold int_to_float. destruct (_ <? _)%Z; [|done]. by intros [= <-].
Qed.

Lemma int_true_div_returns (a b : Z) (q : Q) :
  int_true_div a b = Returns q -> q = inject_Z a / inject_Z b.
Proof.
  unfold int_true_div. destruct (_ <? _)%Z; [|done]. by intros [= <-].
Qed.

(** What a body that returns has computed. *)
Lemma predict_demand_body_returns rt rng fields d :
  predict_demand_body rt rng (JObj fields) = Returns d ->
  exists price promotion competitor_price day_of_week month inventory_level,
    py_float rt (default (JInt 10) (dict_get fields "price"))
      = Returns price /\
    py_int rt (default (JInt 0) (dict_get fields "promotion"))
      = Returns promotion /\
    py_float rt (default (JInt 10) (dict_get fields "competitor_price"))
      = Returns competitor_price /\
    py_int rt (default (JInt 1) (dict_get fields "day_of_week"))
      = Returns day_of_week /\
    py_int rt (default (JInt 1) (dict_get fields "month")) = Returns month /\
    py_int rt (default (JInt 500) (dict_get fields "inventory_level"))
      = Returns inventory_level /\
    d = py_max 0
          (py_round2
             (raw_prediction price competitor_price promotion day_of_week
                (inject_Z (Z.abs (6 - month)))
                (inject_Z inventory_level / inject_Z 500)
                (uniform rt rng))).
Proof.
  unfold predict_demand_body.
  destruct (py_float rt (default (JInt 10) (dict_get fields "price")))
    as [price | |]; [|done..].
  destruct (py_int rt (default (JInt 0) (dict_get fields "promotion")))
    as [promotion | |]; [|done..].
  destruct (py_float rt (default (JInt 10) (dict_get fields "competitor_price")))
    as [competitor_price | |]; [|done..].
  destruct (py_int rt (default (JInt 1) (dict_get fields "day_of_week")))
    as [day_of_week | |]; [|done..].
  destruct (py_int rt (default (JInt 1) (dict_get fields "month")))
    as [month | |]; [|done..].
  destruct (py_int rt (default (JInt 500) (dict_get fields "inventory_level")))
    as [inventory_level | |]; [|done..].
  cbn [mbind outcome_bind].
  destruct (int_to_float _) as [distance | |] eqn:Hd; [|done..].
  apply int_to_float_returns in Hd as ->. cbn [mbind outcome_bind].
  destruct (int_true_div _ _) as [ratio | |] eqn:Hr; [|done..].
  apply int_true_div_returns in Hr as ->. cbn [mbind outcome_bind].
  do 7 (destruct (fl _) as [? | |] eqn:Hfl; [|done..];
        apply fl_returns in Hfl as ->; cbn [mbind outcome_bind]).
  intros [= <-].
  exists price, promotion, competitor_price, day_of_week, month, inventory_level.
  by repeat split.
Qed.

Lemma py_round2_comp (x y : Q) : x == y -> py_round2 x = py_round2 y.
Proof.
  intros E. unfold py_round2.
  rewrite (round_half_even_comp (x * 100) (y * 100)); [done|]. by rewrite E.
Qed.

Lemma clamp_of_nonpositive (x : Q) : x <= 0 -> py_max 0 (py_round2 x) = 0.
Proof.
  intros Hx. pose proof (py_round2_mono x 0 Hx) as H.
  rewrite py_round2_zero in H.
  destruct (py_max_spec 0 (py_round2 x)) as [[Hlt _] | [_ ->]]; [lra|done].
Qed.

(** The factors other than the inventory factor and the noise are never
    negative. *)
Lemma demand_factors_nonneg price competitor_price promotion day_of_week distance :
  0 <= distance ->
  0 <= 1000
       * py_max 0 (1 - (price - 10) * (8 # 100))
       * (if (promotion =? 1)%Z then 125 # 100 else 1)
       * (if Qltb price competitor_price then 115 # 100
          else if Qltb competitor_price price then 90 # 100
          else 1)
       * (if ((day_of_week =? 6) || (day_of_week =? 7))%Z then 11 # 10 else 1)
       * (1 + (15 # 100) * distance / 6).
Proof.
  intros Hd.
  assert (0 <= py_max 0 (1 - (price - 10) * (8 # 100))) as Hpf
    by (destruct (py_max_spec 0 (1 - (price - 10) * (8 # 100)))
          as [[? ->] | [? ->]]; lra).
  assert (0 <= (15 # 100) * distance / 6) as Hs.
  { unfold Qdiv. change (/ 6) with (1 # 6). lra. }
  repeat apply Qmult_le_0_compat; try done; try lra.
  - by destruct (_ =? _)%Z.
  - by destruct (Qltb price competitor_price), (Qltb competitor_price price).
  - by destruct (_ || _).
Qed.

Lemma predict_demand_grid rt rng input_data d :
  fst (predict_demand rt rng input_data) = Returns d ->
  0 <= d /\ exists z : Z, d == inject_Z z / 100.
Proof.
  unfold predict_demand.
  destruct (predict_demand_body rt rng input_data) as [d' | |] eqn:Hbody;
    [|done..].
  cbn [fst]. intros [= <-].
  destruct input_data; try done.
  apply predict_demand_body_returns in Hbody
    as (? & ? & ? & ? & ? & ? & _ & _ & _ & _ & _ & _ & ->).
  destruct (py_max_spec 0 (py_round2 (raw_prediction x x1 x0 x2
              (inject_Z (Z.abs (6 - x3))) (inject_Z x4 / inject_Z 500)
              (uniform rt rng)))) as [[Hlt ->] | [_ ->]].
  - split; [lra|]. by eexists.
  - split; [lra|]. exists 0%Z. reflexivity.
Qed.

(** X15: predict_demand never returns a negative demand, and what it returns
    is a whole number of hundredths. *)
Theorem predict_demand_is_nonnegative rt rng input_data d :
  fst (predict_demand rt rng input_data) = Returns d ->
  0 <= d /\ exists z : Z, d == inject_Z z / 100.
Proof. apply predict_demand_grid. Qed.

(** X16: a price of 22.5 or more makes the price factor zero: whatever the
    other fields and the draw, a call that returns returns 0. *)
Theorem predict_demand_zero_above_price_cap rt rng fields price d :
  py_float rt (default (JInt 10) (dict_get fields "price")) = Returns price ->
  45 # 2 <= price ->
  fst (predict_demand rt rng (JObj fields)) = Returns d ->
  d = 0.
Proof.
  intros Hprice Hcap. unfold predict_demand.
  destruct (predict_demand_body rt rng (JObj fields)) as [d' | |] eqn:Hbody;
    [|done..].
  cbn [fst]. intros [= <-].
  apply predict_demand_body_returns in Hbody
    as (price' & ? & ? & ? & ? & ? & Hprice' & _ & _ & _ & _ & _ & ->).
  rewrite Hprice in Hprice'. injection Hprice' as <-.
  apply clamp_of_nonpositive. unfold raw_prediction.
  destruct (py_max_spec 0 (1 - (price - 10) * (8 # 100)))
    as [[Hlt _] | [_ ->]]; [lra|].
  apply Qle_lteq. right. ring.
Qed.

(** X17: an inventory level of zero or less makes the prediction zero or
    negative before the clamp: a call that returns returns 0, as long as
    the draw is not below -1 (the generator draws from -0.05 to 0.05). *)
Theorem predict_demand_zero_without_inventory rt rng fields inventory_level d :
  py_int rt (default (JInt 500) (dict_get fields "inventory_level"))
    = Returns inventory_level ->
  (inventory_level <= 0)%Z ->
  -1 <= uniform rt rng ->
  fst (predict_demand rt rng (JObj fields)) = Returns d ->
  d = 0.
Proof.
  intros Hinv Hle Hu. unfold predict_demand.
  destruct (predict_demand_body rt rng (JObj fields)) as [d' | |] eqn:Hbody;
    [|done..].
  cbn [fst]. intros [= <-].
  apply predict_demand_body_returns in Hbody
    as (price & promotion & competitor & day & month & inv'
        & _ & _ & _ & _ & _ & Hinv' & ->).
  rewrite Hinv in Hinv'. injection Hinv' as <-.
  apply clamp_of_nonpositive. unfold raw_prediction.
  assert (0 <= inject_Z (Z.abs (6 - month))) as Hdist.
  { change 0 with (inject_Z 0). rewrite <- Zle_Qle. lia. }
  pose proof (demand_factors_nonneg price competitor promotion day _ Hdist)
    as Hfactors.
  set (A := 1000 * _ * _ * _ * _ * _) in *. clearbody A.
  assert (inject_Z inventory_level / inject_Z 500 <= 0) as Hratio.
  { assert (inject_Z inventory_level <= 0) as H
      by (change 0 with (inject_Z 0); by rewrite <- Zle_Qle).
    unfold Qdiv. change (/ inject_Z 500) with (1 # 500). lra. }
  destruct (py_min_spec 1 (inject_Z inventory_level / inject_Z 500))
    as [[_ ->] | [? _]]; [|lra].
  set (ratio := inject_Z inventory_level / inject_Z 500) in *. clearbody ratio.
  set (noise := 1 + uniform rt rng). assert (0 <= noise) by (subst noise; lra).
  clearbody noise.
  assert (A * ratio <= 0) as Hneg by nra.
  set (B := A * ratio) in *. clearbody B. nra.
Qed.

Lemma predict_demand_raises_only_ValueError_aux rt rng input_data :
  (forall e,
     fst (predict_demand rt rng input_data) = Raises e ->
     exn_class e = "ValueError") /\
  (forall e,
     fst (predict_demand rt rng input_data) = Raises e ->
     snd (predict_demand rt rng input_data) = rng).
Proof.
  unfold predict_demand.
  split; intros e;
    (destruct (predict_demand_body rt rng input_data); [done| |done]);
    cbn [fst snd]; [by intros [= <-] | done].
Qed.

(** X20: whatever fails in the body comes out as a ValueError, and a call that
    raises has not drawn from the generator; an input that is not an
    object always raises. *)
Theorem predict_demand_raises_only_ValueError rt rng input_data :
  (forall e,
     fst (predict_demand rt rng input_data) = Raises e ->
     exn_class e = "ValueError" /\
     snd (predict_demand rt rng input_data) = rng) /\
  ((forall fields, input_data <> JObj fields) ->
   exists msg,
     predict_demand rt rng input_data
     = (Raises (OtherError "ValueError" msg), rng)).
Proof.
  unfold predict_demand. split.
  - intros e.
    destruct (predict_demand_body rt rng input_data); [done| |done].
    cbn [fst snd]. by intros [= <-].
  - intros Hobj. destruct input_data; try by eexists.
    by destruct (Hobj fields).
Qed.

(** *** Everyday requests are answered *)

Lemma Qabs_bound (x b : Q) : - b <= x <= b -> Qabs x <= b.
Proof. intros H. by apply Qabs_Qle_condition. Qed.

Lemma Qabs_bounded (x b : Q) : Qabs x <= b -> - b <= x <= b.
Proof. intros H. by apply Qabs_Qle_condition. Qed.

Lemma billion_fits : (1000000006 < float_overflow)%Z.
Proof. by vm_compute. Qed.

Lemma fl_bounded (x b : Q) :
  Qabs x <= b -> Qltb b (inject_Z float_overflow) = true -> fl x = Returns x.
Proof.
  intros Hx Hb. apply Qltb_lt in Hb. unfold fl.
  assert (Qltb (Qabs x) (inject_Z float_overflow) = true) as ->; [|done].
  apply Qltb_lt. by eapply Qle_lt_trans.
Qed.

Lemma Qabs_mul_bound (x f X F : Q) :
  Qabs x <= X -> Qabs f <= F -> Qabs (x * f) <= X * F.
Proof.
  intros Hx Hf. rewrite Qabs_Qmult.
  pose proof (Qabs_nonneg x). pose proof (Qabs_nonneg f).
  set (a := Qabs x) in *. set (b := Qabs f) in *. clearbody a b. nra.
Qed.

Lemma py_float_plain rt v :
  plain_number v = true ->
  exists q, py_float rt v = Returns q /\ Qabs q <= 1000000000.
Proof.
  destruct v as [| b | z | q | | | | |]; try done; cbn [plain_number py_float].
  - intros _. eexists. split; [done|]. by destruct b.
  - intros Hz. apply Z.leb_le in Hz. exists (inject_Z z).
    unfold int_to_float.
    assert ((Z.abs z <? float_overflow)%Z = true) as ->.
    { apply Z.ltb_lt. pose proof billion_fits. lia. }
    split; [done|]. apply Qabs_bound.
    change 1000000000 with (inject_Z 1000000000).
    rewrite <- inject_Z_opp, <- !Zle_Qle. lia.
  - intros Hq. apply Qle_bool_iff in Hq. by exists q.
Qed.

Lemma py_int_plain rt v :
  plain_number v = true ->
  exists z, py_int rt v = Returns z /\ (Z.abs z <= 1000000000)%Z.
Proof.
  destruct v as [| b | z | q | | | | |]; try done; cbn [plain_number py_int].
  - intros _. eexists. split; [done|]. by destruct b.
  - intros Hz. apply Z.leb_le in Hz. by exists z.
  - intros Hq. apply Qle_bool_iff in Hq. eexists. split; [done|].
    destruct q as [n d]. cbn [Qnum Qden].
    apply Qabs_bounded in Hq as [Hlo Hhi].
    unfold Qle in Hlo, Hhi. cbn in Hlo, Hhi.
    assert (Z.abs n <= 1000000000 * Z.pos d)%Z as Hn by lia.
    rewrite <- Z.quot_abs by lia. change (Z.abs (Z.pos d)) with (Z.pos d).
    apply Z.quot_le_upper_bound; lia.
Qed.

Lemma plain_field fields key dflt :
  plain_fields fields = true ->
  In (key, dflt) field_defaults ->
  plain_number (default dflt (dict_get fields key)) = true.
Proof.
  intros Hall Hin. unfold plain_fields in Hall.
  rewrite forallb_forall in Hall. exact (Hall (key, dflt) Hin).
Qed.

(** The body returns on an object of plain fields: no conversion fails
    and no product leaves the range of binary64. *)
Lemma predict_demand_body_plain rt rng fields :
  plain_fields fields = true ->
  -(5 # 100) <= uniform rt rng <= 5 # 100 ->
  exists d, predict_demand_body rt rng (JObj fields) = Returns d.
Proof.
  intros Hplain Hu. unfold predict_demand_body.
  destruct (py_float_plain rt (default (JInt 10) (dict_get fields "price")))
    as (price & -> & Hprice);
    [apply plain_field; [done | cbn; tauto]|].
  destruct (py_int_plain rt (default (JInt 0) (dict_get fields "promotion")))
    as (promotion & -> & _);
    [apply plain_field; [done | cbn; tauto]|].
  destruct (py_float_plain rt
              (default (JInt 10) (dict_get fields "competitor_price")))
    as (competitor_price & -> & _);
    [apply plain_field; [done | cbn; tauto]|].
  destruct (py_int_plain rt (default (JInt 1) (dict_get fields "day_of_week")))
    as (day_of_week & -> & _);
    [apply plain_field; [done | cbn; tauto]|].
  destruct (py_int_plain rt (default (JInt 1) (dict_get fields "month")))
    as (month & -> & Hmonth);
    [apply plain_field; [done | cbn; tauto]|].
  destruct (py_int_plain rt
              (default (JInt 500) (dict_get fields "inventory_level")))
    as (inventory_level & -> & Hinv);
    [apply plain_field; [done | cbn; tauto]|].
  cbn [mbind outcome_bind].
  pose proof billion_fits as Hfits.
  unfold int_to_float.
  assert ((Z.abs (Z.abs (6 - month)) <? float_overflow)%Z = true) as ->
    by (apply Z.ltb_lt; lia).
  cbn [mbind outcome_bind]. unfold int_true_div.
  assert ((Z.abs inventory_level <? float_overflow * 500)%Z = true) as ->
    by (apply Z.ltb_lt; lia).
  cbn [mbind outcome_bind].
  (* the factors and their bounds *)
  set (pf := py_max 0 (1 - (price - 10) * (8 # 100))).
  assert (Qabs pf <= 1000000000) as Hpf.
  { apply Qabs_bounded in Hprice as [Hlo Hhi]. apply Qabs_bound. subst pf.
    destruct (py_max_spec 0 (1 - (price - 10) * (8 # 100)))
      as [[? ->] | [? ->]]; lra. }
  set (pb := if (promotion =? 1)%Z then 125 # 100 else 1).
  assert (Qabs pb <= 2) as Hpb
    by (subst pb; destruct (_ =? _)%Z; apply Qabs_bound; lra).
  set (cb := if Qltb price competitor_price then 115 # 100
             else if Qltb competitor_price price then 90 # 100 else 1).
  assert (Qabs cb <= 2) as Hcb
    by (subst cb; destruct (Qltb _ _); [|destruct (Qltb _ _)];
        apply Qabs_bound; lra).
  set (df := if ((day_of_week =? 6) || (day_of_week =? 7))%Z
             then 11 # 10 else 1).
  assert (Qabs df <= 2) as Hdf
    by (subst df; destruct (_ || _); apply Qabs_bound; lra).
  set (sf := 1 + (15 # 100) * inject_Z (Z.abs (6 - month)) / 6).
  assert (Qabs sf <= 1000000000) as Hsf.
  { assert (0 <= inject_Z (Z.abs (6 - month)) <= 1000000006) as [H0 H1].
    { change 0 with (inject_Z 0).
      change 1000000006 with (inject_Z 1000000006).
      rewrite <- !Zle_Qle. lia. }
    apply Qabs_bound. subst sf. unfold Qdiv. change (/ 6) with (1 # 6). lra. }
  set (vf := py_min 1 (inject_Z inventory_level / inject_Z 500)).
  assert (Qabs vf <= 1000000000) as Hvf.
  { assert (-1000000000 <= inject_Z inventory_level <= 1000000000) as [H0 H1].
    { change (-1000000000) with (inject_Z (-1000000000)).
      change 1000000000 with (inject_Z 1000000000).
      rewrite <- !Zle_Qle. lia. }
    apply Qabs_bound. subst vf. unfold Qdiv.
    change (/ inject_Z 500) with (1 # 500).
    destruct (py_min_spec 1 (inject_Z inventory_level * (1 # 500)))
      as [[? ->] | [? ->]]; lra. }
  set (nf := 1 + uniform rt rng).
  assert (Qabs nf <= 2) as Hnf by (apply Qabs_bound; subst nf; lra).
  clearbody pf pb cb df sf vf nf.
  assert (Qabs 1000 <= 1000) as H0 by (apply Qabs_bound; lra).
  pose proof (Qabs_mul_bound _ _ _ _ H0 Hpf) as H1.
  pose proof (Qabs_mul_bound _ _ _ _ H1 Hpb) as H2.
  pose proof (Qabs_mul_bound _ _ _ _ H2 Hcb) as H3.
  pose proof (Qabs_mul_bound _ _ _ _ H3 Hdf) as H4.
  pose proof (Qabs_mul_bound _ _ _ _ H4 Hsf) as H5.
  pose proof (Qabs_mul_bound _ _ _ _ H5 Hvf) as H6.
  pose proof (Qabs_mul_bound _ _ _ _ H6 Hnf) as H7.
  rewrite (fl_bounded _ _ H1) by (by vm_compute). cbn [mbind outcome_bind].
  rewrite (fl_bounded _ _ H2) by (by vm_compute). cbn [mbind outcome_bind].
  rewrite (fl_bounded _ _ H3) by (by vm_compute). cbn [mbind outcome_bind].
  rewrite (fl_bounded _ _ H4) by (by vm_compute). cbn [mbind outcome_bind].
  rewrite (fl_bounded _ _ H5) by (by vm_compute). cbn [mbind outcome_bind].
  rewrite (fl_bounded _ _ H6) by (by vm_compute). cbn [mbind outcome_bind].
  rewrite (fl_bounded _ _ H7) by (by vm_compute). cbn [mbind outcome_bind].
  by eexists.
Qed.

Lemma predict_demand_plain rt rng fields :
  plain_fields fields = true ->
  -(5 # 100) <= uniform rt rng <= 5 # 100 ->
  exists d, predict_demand rt rng (JObj fields) = (Returns d, S rng).
Proof.
  intros Hplain Hu. unfold predict_demand.
  destruct (predict_demand_body_plain rt rng fields Hplain Hu) as [d ->].
  by exists d.
Qed.

Lemma dict_get_app fields key v key' :
  dict_get (fields ++ [(key, v)]) key'
  = match dict_get fields key' with
    | Some x => Some x
    | None => if String.eqb key key' then Some v else None
    end.
Proof.
  induction fields as [|[k x] fields IH]; cbn [app dict_get]; [done|].
  by destruct (String.eqb k key').
Qed.

Lemma field_defaults_functional key v d :
  In (key, v) field_defaults -> In (key, d) field_defaults -> v = d.
Proof.
  unfold field_defaults. cbn [In]. intuition congruence.
Qed.

(** X19: a field that is absent reads as its default: adding it with the
    default value changes nothing. *)
Theorem absent_field_takes_default rt rng fields key v :
  In (key, v) field_defaults ->
  dict_get fields key = None ->
  predict_demand rt rng (JObj (fields ++ [(key, v)]))
  = predict_demand rt rng (JObj fields).
Proof.
  intros Hin Hnone.
  assert (forall key' d, In (key', d) field_defaults ->
            default d (dict_get (fields ++ [(key, v)]) key')
            = default d (dict_get fields key')) as H.
  { intros key' d Hin'. rewrite dict_get_app.
    destruct (dict_get fields key') eqn:E; [done|].
    destruct (String.eqb key key') eqn:Ek; [|done].
    apply String.eqb_eq in Ek as <-. cbn [default].
    apply (field_defaults_functional key); done. }
  unfold predict_demand, predict_demand_body.
  rewrite (H "price" (JInt 10)), (H "promotion" (JInt 0)),
    (H "competitor_price" (JInt 10)), (H "day_of_week" (JInt 1)),
    (H "month" (JInt 1)), (H "inventory_level" (JInt 500));
    [done | cbn; tauto ..].
Qed.

Lemma competition_boost_mono (p1 p2 c : Q) :
  p1 <= p2 ->
  0 < (if Qltb p2 c then 115 # 100 else if Qltb c p2 then 90 # 100 else 1)
  <= (if Qltb p1 c then 115 # 100 else if Qltb c p1 then 90 # 100 else 1).
Proof.
  intros Hle.
  destruct (Qltb p2 c) eqn:E2, (Qltb p1 c) eqn:E1,
    (Qltb c p2) eqn:E4, (Qltb c p1) eqn:E3;
    repeat match goal with
           | H : Qltb _ _ = true |- _ => apply Qltb_lt in H
           | H : Qltb _ _ = false |- _ => apply Qltb_ge in H
           end; lra.
Qed.

(** X18: with the other fields and the draw fixed, a higher price never gives
    a higher demand. *)
Theorem predict_demand_decreases_with_price
    rt rng fields1 fields2 p1 p2 d1 d2 :
  (forall key, key <> "price" -> dict_get fields1 key = dict_get fields2 key) ->
  py_float rt (default (JInt 10) (dict_get fields1 "price")) = Returns p1 ->
  py_float rt (default (JInt 10) (dict_get fields2 "price")) = Returns p2 ->
  p1 <= p2 ->
  -1 <= uniform rt rng ->
  fst (predict_demand rt rng (JObj fields1)) = Returns d1 ->
  fst (predict_demand rt rng (JObj fields2)) = Returns d2 ->
  d2 <= d1.
Proof.
  intros Hsame Hp1 Hp2 Hle Hu. unfold predict_demand.
  destruct (predict_demand_body rt rng (JObj fields1)) as [d1' | |] eqn:Hb1;
    [|done..].
  destruct (predict_demand_body rt rng (JObj fields2)) as [d2' | |] eqn:Hb2;
    [|done..].
  cbn [fst]. intros [= <-] [= <-].
  apply predict_demand_body_returns in Hb1
    as (p1' & promotion & c & day & month & inv
        & Hp1' & Hpromo & Hc & Hday & Hmonth & Hinv & ->).
  apply predict_demand_body_returns in Hb2
    as (p2' & promotion' & c' & day' & month' & inv'
        & Hp2' & Hpromo' & Hc' & Hday' & Hmonth' & Hinv' & ->).
  rewrite Hp1 in Hp1'. injection Hp1' as <-.
  rewrite Hp2 in Hp2'. injection Hp2' as <-.
  rewrite <- Hsame, Hpromo in Hpromo' by done. injection Hpromo' as <-.
  rewrite <- Hsame, Hc in Hc' by done. injection Hc' as <-.
  rewrite <- Hsame, Hday in Hday' by done. injection Hday' as <-.
  rewrite <- Hsame, Hmonth in Hmonth' by done. injection Hmonth' as <-.
  rewrite <- Hsame, Hinv in Hinv' by done. injection Hinv' as <-.
  clear Hp1 Hp2 Hpromo Hc Hday Hmonth Hinv Hsame.
  unfold raw_prediction.
  set (pf1 := py_max 0 (1 - (p1 - 10) * (8 # 100))).
  set (pf2 := py_max 0 (1 - (p2 - 10) * (8 # 100))).
  assert (0 <= pf2 <= pf1) as [Hpf0 Hpf].
  { split.
    - subst pf2. destruct (py_max_spec 0 (1 - (p2 - 10) * (8 # 100)))
        as [[? ->] | [? ->]]; lra.
    - apply py_max_mono. lra. }
  pose proof (competition_boost_mono p1 p2 c Hle) as [Hcb0 Hcb].
  set (cb1 := if Qltb p1 c then _ else _) in *.
  set (cb2 := if Qltb p2 c then _ else _) in *.
  set (pb := if (promotion =? 1)%Z then _ else _).
  assert (0 < pb) as Hpb by (subst pb; by destruct (_ =? _)%Z).
  set (df := if ((day =? 6) || (day =? 7))%Z then _ else _).
  assert (0 < df) as Hdf by (subst df; by destruct (_ || _)).
  set (sf := 1 + (15 # 100) * inject_Z (Z.abs (6 - month)) / 6).
  assert (0 < sf) as Hsf.
  { assert (0 <= inject_Z (Z.abs (6 - month))) as Hdist
      by (change 0 with (inject_Z 0); rewrite <- Zle_Qle; lia).
    subst sf. unfold Qdiv. change (/ 6) with (1 # 6). lra. }
  set (factor := py_min 1 (inject_Z inv / inject_Z 500)).
  set (noise := 1 + uniform rt rng).
  assert (0 <= noise) as Hnoise by (subst noise; lra).
  clearbody pf1 pf2 cb1 cb2 pb df sf factor noise.
  assert (0 <= pb * df * sf * noise) as HK.
  { repeat apply Qmult_le_0_compat; lra. }
  assert (pf2 * cb2 <= pf1 * cb1) as HG by nra.
  assert (0 <= pf2 * cb2) as HG0 by nra.
  assert (1000 * pf1 * pb * cb1 * df * sf * factor * noise
          == 1000 * (pb * df * sf * noise) * (pf1 * cb1) * factor) as E1 by ring.
  assert (1000 * pf2 * pb * cb2 * df * sf * factor * noise
          == 1000 * (pb * df * sf * noise) * (pf2 * cb2) * factor) as E2 by ring.
  rewrite (py_round2_comp _ _ E1), (py_round2_comp _ _ E2). clear E1 E2.
  set (K := pb * df * sf * noise) in *. set (G1 := pf1 * cb1) in *.
  set (G2 := pf2 * cb2) in *. clearbody K G1 G2.
  destruct (Qlt_le_dec factor 0) as [Hneg | Hpos].
  - rewrite !clamp_of_nonpositive; [lra | |].
    + assert (0 <= 1000 * K * G1) by nra. nra.
    + assert (0 <= 1000 * K * G2) by nra. nra.
  - apply py_max_mono, py_round2_mono.
    assert (1000 * K * G2 <= 1000 * K * G1) by nra. nra.
Qed.

(** ** The /predict handler *)

Lemma missing_from_object fields names :
  missing_from (JObj fields) names
  = Returns (List.filter (fun field => match dict_get fields field with
                                  | None => true
                                  | Some _ => false
                                  end) names).
Proof.
  induction names as [|name names IH]; [done|].
  cbn [missing_from json_contains mbind outcome_bind]. rewrite IH.
  cbn [mbind outcome_bind mret outcome_ret List.filter].
  by destruct (dict_get fields name).
Qed.

Lemma missing_from_scalar v name names :
  is_scalar v = true -> missing_from v (name :: names) = Raises TypeError.
Proof. by destruct v. Qed.

Lemma missing_from_not_scalar v names :
  is_scalar v = false -> exists missing, missing_from v names = Returns missing.
Proof.
  intros Hv. induction names as [|name names [missing IH]]; [by eexists|].
  cbn [missing_from]. rewrite IH.
  destruct v; try done; cbn [json_contains mbind outcome_bind]; by eexists.
Qed.

(** X21: a JSON object that lacks some of the five required fields is
    answered with status 400 and the list of exactly the fields it lacks,
    in the order price, promotion, competitor_price, day_of_week, month;
    no prediction is made and no random draw consumed.  The field
    inventory_level is not required. *)
Theorem predict_reports_missing_fields rt rng fields :
  absent_fields fields <> [] ->
  predict rt rng (json_request (JObj fields))
  = (Returns
       {| body :=
            JObj [("error",
                   JStr ("Missing required fields: "
                         ++ String.concat ", " (absent_fields fields)));
                  ("status", JStr "error");
                  ("required_fields", JArr (map JStr required_fields))];
          status_code := 400 |}, rng).
Proof.
  intros Habsent. unfold predict, json_request. cbn [is_json get_json negb].
  rewrite missing_from_object. fold (absent_fields fields).
  by destruct (absent_fields fields).
Qed.

(** X22: the handler never raises, and it answers whenever predict_demand
    returns or raises on the body: with status 200, 400 or 500, and with
    500 only when the body could not be parsed or is a JSON scalar other
    than a string.  In particular a JSON object whose fields are plain
    numbers is answered, with 200 when it has the five required fields
    and with 400 when it lacks one. *)
Theorem predict_status_codes rt rng req :
  (forall e, fst (predict rt rng req) <> Raises e) /\
  (forall r,
     fst (predict rt rng req) = Returns r ->
     (status_code r = 200 \/ status_code r = 400 \/ status_code r = 500)%Z /\
     (status_code r = 500%Z ->
      is_json req = true /\
      (get_json req = None \/
       exists v, get_json req = Some v /\ is_scalar v = true))) /\
  ((forall input_data,
      get_json req = Some input_data ->
      fst (predict_demand rt rng input_data) <> NonFinite) ->
   exists r, fst (predict rt rng req) = Returns r) /\
  (forall fields,
     is_json req = true ->
     get_json req = Some (JObj fields) ->
     plain_fields fields = true ->
     -(5 # 100) <= uniform rt rng <= 5 # 100 ->
     exists r,
       fst (predict rt rng req) = Returns r /\
       (absent_fields fields = [] -> status_code r = 200%Z) /\
       (absent_fields fields <> [] -> status_code r = 400%Z)).
Proof.
  assert ((forall e, fst (predict rt rng req) <> Raises e) /\
          (forall r,
             fst (predict rt rng req) = Returns r ->
             (status_code r = 200 \/ status_code r = 400
              \/ status_code r = 500)%Z /\
             (status_code r = 500%Z ->
              is_json req = true /\
              (get_json req = None \/
               exists v, get_json req = Some v /\ is_scalar v = true))) /\
          ((forall input_data,
              get_json req = Some input_data ->
              fst (predict_demand rt rng input_data) <> NonFinite) ->
           exists r, fst (predict rt rng req) = Returns r)) as Hthree.
  { unfold predict.
    destruct (is_json req); cbn [negb].
    2: { split; [done|]. split; [|by eexists].
         intros r [= <-]. cbn. split; [tauto|done]. }
    destruct (get_json req) as [input_data|].
    2: { split; [done|]. split; [|by eexists].
         intros r [= <-]. cbn. split; [tauto|]. intros _. tauto. }
    destruct (is_scalar input_data) eqn:Hscalar.
    { rewrite (missing_from_scalar input_data "price" _ Hscalar
               : missing_from input_data required_fields = _).
      split; [done|]. split; [|by eexists].
      intros r [= <-]. cbn. split; [tauto|]. intros _.
      split; [done|]. right. by exists input_data. }
    destruct (missing_from_not_scalar input_data required_fields Hscalar)
      as [missing ->].
    destruct missing as [|field rest].
    2: { split; [done|]. split; [|by eexists].
         intros r [= <-]. cbn. split; [tauto|done]. }
    pose proof (proj1 (predict_demand_raises_only_ValueError_aux
                         rt rng input_data)) as Hval.
    destruct (predict_demand rt rng input_data) as [[d | e |] rng'] eqn:Hpd.
    - split; [done|]. split; [|by eexists].
      intros r [= <-]. cbn. split; [tauto|done].
    - cbn [fst] in Hval. rewrite (Hval e eq_refl). cbn [String.eqb].
      split; [done|]. split; [|by eexists].
      intros r [= <-]. cbn. split; [tauto|done].
    - split; [done|]. split; [done|].
      intros Hfin. specialize (Hfin input_data eq_refl).
      rewrite Hpd in Hfin. by destruct Hfin. }
  destruct Hthree as (H1 & H2 & H3).
  do 3 (split; [done|]).
  intros fields Hjson Hbody Hplain Hu. unfold predict.
  rewrite Hjson, Hbody. cbn [negb].
  rewrite missing_from_object. fold (absent_fields fields).
  destruct (absent_fields fields) as [|field rest].
  - destruct (predict_demand_plain rt rng fields Hplain Hu) as [d ->].
    eexists. split; [done|]. split; [done|]. intros H. by destruct H.
  - eexists. split; [done|]. split; [done|]. done.
Qed.

Lemma py_round2_fixes_grid (d : Q) (z : Z) :
  d == inject_Z z / 100 -> py_round2 d == d.
Proof.
  intros E. rewrite (py_round2_comp d _ E), E. apply py_round2_grid.
Qed.

(** X23: a 200 answer of /predict carries the demand predict_demand returned
    for the body, made with one random draw, and a confidence interval
    whose bounds, the demand times 0.85 and times 1.15 rounded to
    hundredths, enclose the demand. *)
Theorem predict_success_encloses_demand rt rng req r :
  fst (predict rt rng req) = Returns r ->
  status_code r = 200%Z ->
  exists input_data d lower upper,
    get_json req = Some input_data /\
    fst (predict_demand rt rng input_data) = Returns d /\
    snd (predict rt rng req) = S rng /\
    json_field (body r) "predicted_demand" = Some (JFloat d) /\
    json_field (body r) "confidence_interval"
      = Some (JObj [("lower", JFloat lower); ("upper", JFloat upper);
                    ("confidence_level", JFloat (95 # 100))]) /\
    json_field (body r) "input_features" = Some input_data /\
    lower = py_round2 (d * (85 # 100)) /\
    upper = py_round2 (d * (115 # 100)) /\
    0 <= lower /\ lower <= d /\ d <= upper.
Proof.
  unfold predict.
  destruct (is_json req); cbn [negb]; [|by intros [= <-]].
  destruct (get_json req) as [input_data|]; [|by intros [= <-]].
  destruct (missing_from input_data required_fields) as [[|field rest] | e |];
    [| by intros [= <-] .. | done].
  pose proof (predict_demand_grid rt rng input_data) as Hgrid.
  pose proof (proj1 (predict_demand_raises_only_ValueError_aux
                       rt rng input_data)) as Hval.
  assert (forall d, fst (predict_demand rt rng input_data) = Returns d ->
            snd (predict_demand rt rng input_data) = S rng) as Hrng.
  { unfold predict_demand.
    by destruct (predict_demand_body rt rng input_data). }
  destruct (predict_demand rt rng input_data) as [[d | e |] rng'] eqn:Hcall;
    cbn [fst snd] in *; [| |done].
  2: { rewrite (Hval e eq_refl). cbn [String.eqb]. by intros [= <-]. }
  intros [= <-] _. cbn [body snd].
  destruct (Hgrid d eq_refl) as [Hd [z Hz]].
  exists input_data, d, (py_round2 (d * (85 # 100))),
    (py_round2 (d * (115 # 100))).
  rewrite Hcall. cbn [fst].
  split; [done|]. split; [done|]. split; [exact (Hrng d eq_refl)|].
  do 5 (split; [done|]).
  pose proof (py_round2_fixes_grid d z Hz) as Hfix.
  pose proof (py_round2_mono 0 (d * (85 # 100))) as H0.
  pose proof (py_round2_mono (d * (85 # 100)) d) as H1.
  pose proof (py_round2_mono d (d * (115 # 100))) as H2.
  rewrite py_round2_zero in H0. rewrite Hfix in H1, H2.
  split; [apply H0; lra|]. split; [apply H1; lra | apply H2; lra].
Qed.

(** ** The /batch-predict handler *)

Lemma predict_demand_draws rt rng scenario :
  (forall d, fst (predict_demand rt rng scenario) = Returns d ->
             snd (predict_demand rt rng scenario) = S rng) /\
  (forall e, fst (predict_demand rt rng scenario) = Raises e ->
             snd (predict_demand rt rng scenario) = rng).
Proof.
  unfold predict_demand.
  by destruct (predict_demand_body rt rng scenario).
Qed.

(** The loop adds one entry per scenario, numbered from [i + 1] on; entry
    [k] is the success entry or the error entry of the [k]-th scenario,
    predicted with the draw that follows those of the successes before
    it. *)
Lemma batch_loop_returns rt items :
  forall rng i predictions out rng',
    batch_loop rt rng i items predictions = (Returns out, rng') ->
    exists new,
      out = predictions ++ new /\
      length new = length items /\
      rng' = (rng + length (List.filter is_success new))%nat /\
      forall k entry,
        new !! k = Some entry ->
        exists scenario,
          items !! k = Some scenario /\
          ((exists d,
              fst (predict_demand rt
                     (rng + length (List.filter is_success (take k new)))
                     scenario) = Returns d /\
              entry = success_entry (i + k) d scenario) \/
           (exists e,
              fst (predict_demand rt
                     (rng + length (List.filter is_success (take k new)))
                     scenario) = Raises e /\
              entry = error_entry rt (i + k) e scenario)).
Proof.
  induction items as [|scenario items IH]; intros rng i predictions out rng'.
  - cbn. intros [= <- <-]. exists []. rewrite app_nil_r.
    repeat split; [cbn; lia|]. intros k entry Hk. by destruct k.
  - cbn [batch_loop].
    pose proof (predict_demand_draws rt rng scenario) as [Hret Hraise].
    destruct (predict_demand rt rng scenario) as [[d | e |] rng1] eqn:Hcall;
      cbn [fst snd] in *; [| |done].
    + rewrite (Hret d eq_refl) in *. intros H.
      apply IH in H as (new & -> & Hlen & -> & Hnew).
      exists (success_entry i d scenario :: new). rewrite <- app_assoc.
      split; [done|]. split; [cbn; lia|]. split.
      { assert (is_success (success_entry i d scenario) = true) as Hs by done.
        cbn [List.filter]. rewrite Hs. cbn [length]. lia. }
      intros [|k] entry Hk.
      * injection Hk as <-. exists scenario. split; [done|]. left. exists d.
        cbn [take List.filter length]. rewrite !Nat.add_0_r, Hcall. done.
      * destruct (Hnew k entry Hk) as (sc & Hsc & Hentry).
        exists sc. split; [done|].
        assert (is_success (success_entry i d scenario) = true) as Hs by done.
        cbn [take firstn List.filter]. rewrite Hs. cbn [length].
        replace (rng + S (length (List.filter is_success (take k new))))%nat
          with (S rng + length (List.filter is_success (take k new)))%nat
          by lia.
        replace (i + S k)%nat with (S i + k)%nat by lia. exact Hentry.
    + rewrite (Hraise e eq_refl) in *. intros H.
      apply IH in H as (new & -> & Hlen & -> & Hnew).
      exists (error_entry rt i e scenario :: new). rewrite <- app_assoc.
      split; [done|]. split; [cbn; lia|]. split.
      { assert (is_success (error_entry rt i e scenario) = false) as Hs by done.
        cbn [List.filter]. by rewrite Hs. }
      intros [|k] entry Hk.
      * injection Hk as <-. exists scenario. split; [done|]. right. exists e.
        cbn [take List.filter length]. rewrite !Nat.add_0_r, Hcall. done.
      * destruct (Hnew k entry Hk) as (sc & Hsc & Hentry).
        exists sc. split; [done|].
        assert (is_success (error_entry rt i e scenario) = false) as Hs by done.
        cbn [take firstn List.filter]. rewrite Hs.
        replace (i + S k)%nat with (S i + k)%nat by lia. exact Hentry.
Qed.

Lemma batch_loop_never_raises rt items :
  forall rng i predictions e rng',
    batch_loop rt rng i items predictions <> (Raises e, rng').
Proof.
  induction items as [|scenario items IH]; intros rng i predictions e rng';
    [done|].
  cbn [batch_loop].
  destruct (predict_demand rt rng scenario) as [[d | e' |] rng1];
    [apply IH | apply IH | done].
Qed.

(** X24: a JSON object whose 'scenarios' is a non-empty list is answered with
    status 200 (never 400 or 500): the answer holds one entry per
    scenario, in order, entry [k] numbered [k + 1] and echoing scenario
    [k]; total_scenarios is their number, successful the number of
    entries with status success, and the generator has made exactly one
    draw per success. *)
Theorem batch_predict_answers_every_scenario rt rng fields items r rng' :
  dict_get fields "scenarios" = Some (JArr items) ->
  items <> [] ->
  batch_predict rt rng (json_request (JObj fields)) = (Returns r, rng') ->
  status_code r = 200%Z /\
  exists predictions,
    body r = JObj [("predictions", JArr predictions);
                   ("total_scenarios", JInt (Z.of_nat (length items)));
                   ("successful",
                    JInt (Z.of_nat (length (List.filter is_success predictions))));
                   ("timestamp", JStr (now rt));
                   ("status", JStr "success")] /\
    length predictions = length items /\
    (length (List.filter is_success predictions) <= length items)%nat /\
    rng' = (rng + length (List.filter is_success predictions))%nat /\
    forall k entry,
      predictions !! k = Some entry ->
      json_field entry "scenario_id" = Some (JInt (Z.of_nat k + 1)) /\
      json_field entry "input" = items !! k.
Proof.
  intros Hscen Hne. unfold batch_predict, json_request.
  cbn [is_json get_json negb]. rewrite Hscen. cbn [default from_option id].
  destruct items as [|item items]; [done|]. cbn [truthy negb iterate].
  destruct (batch_loop rt rng 0 (item :: items) []) as [[out | e |] rng1]
    eqn:Hloop; [| by apply batch_loop_never_raises in Hloop | by intros [=]].
  apply batch_loop_returns in Hloop as (new & -> & Hlen & -> & Hnew).
  intros [= <- <-]. cbn [status_code body app]. split; [done|].
  exists new. split; [done|]. split; [done|].
  split; [rewrite <- Hlen; apply filter_length_le|]. split; [done|].
  intros k entry Hk.
  destruct (Hnew k entry Hk) as (scenario & -> & [(d & _ & ->) | (e & _ & ->)]);
    by cbn.
Qed.

(** X25: entry [k] of a 200 answer is what predict_demand gives for scenario
    [k]: its demand when the call returns, its error text when the call
    raises, the draws being handed out in order to the calls that
    return. *)
Theorem batch_predict_entries_are_predictions rt rng fields items r rng' :
  dict_get fields "scenarios" = Some (JArr items) ->
  items <> [] ->
  batch_predict rt rng (json_request (JObj fields)) = (Returns r, rng') ->
  exists predictions,
    json_field (body r) "predictions" = Some (JArr predictions) /\
    forall k entry,
      predictions !! k = Some entry ->
      exists scenario,
        items !! k = Some scenario /\
        ((exists d,
            fst (predict_demand rt
                   (rng + length (List.filter is_success (take k predictions)))
                   scenario) = Returns d /\
            entry = success_entry k d scenario) \/
         (exists e,
            fst (predict_demand rt
                   (rng + length (List.filter is_success (take k predictions)))
                   scenario) = Raises e /\
            entry = error_entry rt k e scenario)).
Proof.
  intros Hscen Hne. unfold batch_predict, json_request.
  cbn [is_json get_json negb]. rewrite Hscen. cbn [default from_option id].
  destruct items as [|item items]; [done|]. cbn [truthy negb iterate].
  destruct (batch_loop rt rng 0 (item :: items) []) as [[out | e |] rng1]
    eqn:Hloop; [| by apply batch_loop_never_raises in Hloop | by intros [=]].
  apply batch_loop_returns in Hloop as (new & -> & Hlen & -> & Hnew).
  intros [= <- <-]. cbn [body app]. exists new. split; [done|].
  intros k entry Hk. destruct (Hnew k entry Hk) as (scenario & Hsc & H).
  exists scenario. split; [done|]. exact H.
Qed.

(** X26: a JSON object without 'scenarios', or whose 'scenarios' is empty or
    otherwise false (null, false, 0, an empty string, list or object), is
    answered with status 400 and 'No scenarios provided'; no prediction
    is made. *)
Theorem batch_predict_rejects_no_scenarios rt rng fields :
  truthy (default (JArr []) (dict_get fields "scenarios")) = false ->
  batch_predict rt rng (json_request (JObj fields))
  = (Returns {| body := JObj [("error", JStr "No scenarios provided");
                              ("status", JStr "error")];
                status_code := 400 |}, rng).
Proof.
  intros Hfalse. unfold batch_predict, json_request.
  cbn [is_json get_json negb]. by rewrite Hfalse.
Qed.

(** ** Instances on the mock API server *)

Lemma example_scenario_demand_is_nonnegative :
  0 <= demand_of (predict_demand plain_runtime 0 example_scenario).
Proof.
  apply (predict_demand_is_nonnegative plain_runtime 0 example_scenario
           (demand_of (predict_demand plain_runtime 0 example_scenario))).
  vm_compute; reflexivity.
Defined.

Lemma price_30_gives_zero_demand :
  demand_of (predict_demand plain_runtime 0
               (JObj [("price", JInt 30); ("inventory_level", JInt 100)])) = 0.
Proof.
  apply (predict_demand_zero_above_price_cap plain_runtime 0
           [("price", JInt 30); ("inventory_level", JInt 100)] 30);
    [vm_compute; reflexivity | vm_compute; discriminate
    | vm_compute; reflexivity].
Defined.

Lemma empty_shelf_gives_zero_demand :
  demand_of (predict_demand plain_runtime 0
               (JObj [("price", JInt 10); ("inventory_level", JInt 0)])) = 0.
Proof.
  apply (predict_demand_zero_without_inventory plain_runtime 0
           [("price", JInt 10); ("inventory_level", JInt 0)] 0);
    [vm_compute; reflexivity | lia | vm_compute; discriminate
    | vm_compute; reflexivity].
Defined.

Lemma explicit_default_inventory_changes_nothing :
  predict_demand plain_runtime 0
    (JObj ([("price", JInt 12)] ++ [("inventory_level", JInt 500)]))
  = predict_demand plain_runtime 0 (JObj [("price", JInt 12)]).
Proof.
  apply (absent_field_takes_default plain_runtime 0 [("price", JInt 12)]
           "inventory_level" (JInt 500));
    [cbn; tauto | reflexivity].
Defined.

Lemma price_12_sells_no_more_than_price_11 :
  demand_of (predict_demand plain_runtime 0 (JObj [("price", JInt 12)]))
  <= demand_of (predict_demand plain_runtime 0 (JObj [("price", JInt 11)])).
Proof.
  apply (predict_demand_decreases_with_price plain_runtime 0
           [("price", JInt 11)] [("price", JInt 12)] 11 12);
    [ intros key Hkey; cbn [dict_get];
      destruct (String.eqb "price" key) eqn:E;
      [apply String.eqb_eq in E; congruence | done]
    | vm_compute; reflexivity | vm_compute; reflexivity
    | vm_compute; discriminate | vm_compute; discriminate
    | vm_compute; reflexivity | vm_compute; reflexivity ].
Defined.

Lemma example_request_is_answered :
  exists r,
    fst (predict plain_runtime 0 (json_request example_scenario)) = Returns r /\
    (absent_fields [("price", JFloat (105 # 10)); ("promotion", JInt 1);
                    ("competitor_price", JFloat 11); ("day_of_week", JInt 3);
                    ("month", JInt 6); ("inventory_level", JInt 500)] = [] ->
     status_code r = 200%Z) /\
    (absent_fields [("price", JFloat (105 # 10)); ("promotion", JInt 1);
                    ("competitor_price", JFloat 11); ("day_of_week", JInt 3);
                    ("month", JInt 6); ("inventory_level", JInt 500)] <> [] ->
     status_code r = 400%Z).
Proof.
  apply (proj2 (proj2 (proj2 (predict_status_codes plain_runtime 0
                                (json_request example_scenario))))
           [("price", JFloat (105 # 10)); ("promotion", JInt 1);
            ("competitor_price", JFloat 11); ("day_of_week", JInt 3);
            ("month", JInt 6); ("inventory_level", JInt 500)]).
  - reflexivity.
  - reflexivity.
  - vm_compute; reflexivity.
  - split; vm_compute; discriminate.
Defined.

Lemma request_without_month_is_rejected :
  status_code
    (match fst (predict plain_runtime 0
                  (json_request (JObj [("price", JInt 3)]))) with
     | Returns r => r
     | _ => not_json_400
     end) = 400%Z.
Proof.
  rewrite (predict_reports_missing_fields plain_runtime 0 [("price", JInt 3)]);
    [reflexivity | vm_compute; discriminate].
Defined.

Lemma example_request_interval :
  exists input_data d lower upper,
    get_json (json_request example_scenario) = Some input_data /\
    fst (predict_demand plain_runtime 0 input_data) = Returns d /\
    snd (predict plain_runtime 0 (json_request example_scenario)) = 1%nat /\
    json_field (returned_body (fst (predict plain_runtime 0
                                      (json_request example_scenario))))
      "predicted_demand" = Some (JFloat d) /\
    json_field (returned_body (fst (predict plain_runtime 0
                                      (json_request example_scenario))))
      "confidence_interval"
      = Some (JObj [("lower", JFloat lower); ("upper", JFloat upper);
                    ("confidence_level", JFloat (95 # 100))]) /\
    json_field (returned_body (fst (predict plain_runtime 0
                                      (json_request example_scenario))))
      "input_features" = Some input_data /\
    lower = py_round2 (d * (85 # 100)) /\
    upper = py_round2 (d * (115 # 100)) /\
    0 <= lower /\ lower <= d /\ d <= upper.
Proof.
  assert (exists r, fst (predict plain_runtime 0 (json_request example_scenario))
                    = Returns r /\ status_code r = 200%Z) as (r & Hr & Hs)
    by (eexists; split; vm_compute; reflexivity).
  rewrite Hr. cbn [returned_body].
  exact (predict_success_encloses_demand plain_runtime 0
           (json_request example_scenario) r Hr Hs).
Defined.

Lemma example_batch_is_answered :
  status_code
    (returned_response (batch_predict plain_runtime 0
                          (json_request example_batch))) = 200%Z.
Proof.
  apply (batch_predict_answers_every_scenario plain_runtime 0
           [("scenarios", JArr example_items)] example_items
           (returned_response (batch_predict plain_runtime 0
                                 (json_request example_batch)))
           (snd (batch_predict plain_runtime 0 (json_request example_batch))));
    [reflexivity | discriminate | vm_compute; reflexivity].
Defined.

Lemma example_batch_entries :
  exists predictions,
    json_field
      (body (returned_response (batch_predict plain_runtime 0
                                  (json_request example_batch))))
      "predictions" = Some (JArr predictions) /\
    forall k entry,
      predictions !! k = Some entry ->
      exists scenario,
        example_items !! k = Some scenario /\
        ((exists d,
            fst (predict_demand plain_runtime
                   (0 + length (List.filter is_success (take k predictions)))
                   scenario) = Returns d /\
            entry = success_entry k d scenario) \/
         (exists e,
            fst (predict_demand plain_runtime
                   (0 + length (List.filter is_success (take k predictions)))
                   scenario) = Raises e /\
            entry = error_entry plain_runtime k e scenario)).
Proof.
  apply (batch_predict_entries_are_predictions plain_runtime 0
           [("scenarios", JArr example_items)] example_items
           (returned_response (batch_predict plain_runtime 0
                                 (json_request example_batch)))
           (snd (batch_predict plain_runtime 0 (json_request example_batch))));
    [reflexivity | discriminate | vm_compute; reflexivity].
Defined.

Lemma empty_batch_is_rejected :
  batch_predict plain_runtime 0 (json_request (JObj [("scenarios", JArr [])]))
  = (Returns {| body := JObj [("error", JStr "No scenarios provided");
                              ("status", JStr "error")];
                status_code := 400 |}, 0%nat).
Proof.
  apply (batch_predict_rejects_no_scenarios plain_runtime 0
           [("scenarios", JArr [])]).
  reflexivity.
Defined.
